(** * server.py: the local Whisper transcription service

    A shallow embedding of [src/server.py] (a Flask application with the two
    routes [/health] and [/transcribe]) and the properties of its handlers.

    The handlers are Python functions that read a parsed JSON body, touch the
    file system through [tempfile] and [os], call the loaded Whisper model and
    answer with [jsonify(...)].  They are embedded as computations in a state
    and exception monad over a [world] (the disk, the open file objects and
    the sequence of observable calls).  Everything that lives outside the
    source file -- [base64.b64decode], the operating system, the model,
    [traceback.format_exc] -- is a field of a [Runtime] record, and every
    theorem quantifies over all runtimes. *)

From Stdlib Require Import ZArith NArith List String Ascii PrimFloat Lia.
From Stdlib Require Import Init.Byte DecimalString.
From stdpp Require Import base option list gmap.
Import ListNotations.

Set Default Proof Using "Type".

(** ** Python strings

    A Python [str] is a sequence of Unicode code points.  [py] turns an ASCII
    literal of this file into one. *)

Module PyStr.

Definition pystr : Type := list N.

Definition py (s : string) : pystr :=
  List.map N_of_ascii (list_ascii_of_string s).
Arguments py s%_string : simpl never.

(** [str.isspace] for one code point: the table [_PyUnicode_IsWhitespace] of
    CPython (bidirectional type WS, B or S, or category Zs). *)
Definition isspace (c : N) : bool :=
  ((9 <=? c) && (c <=? 13) || (28 <=? c) && (c <=? 32)
   || (c =? 133) || (c =? 160) || (c =? 5760)
   || (8192 <=? c) && (c <=? 8202)
   || (c =? 8232) || (c =? 8233) || (c =? 8239) || (c =? 8287)
   || (c =? 12288))%N.

(** [s.lstrip()], [s.rstrip()] and [s.strip()] without argument. *)
Fixpoint lstrip (s : pystr) : pystr :=
  match s with
  | c :: s' => if isspace c then lstrip s' else s
  | [] => []
  end.

Definition rstrip (s : pystr) : pystr := reverse (lstrip (reverse s)).

Definition strip (s : pystr) : pystr := rstrip (lstrip s).

(** [s.endswith(t)]. *)
Definition endswith (s t : pystr) : bool := bool_decide (t `suffix_of` s).

(** [str(z)] for a Python [int]. *)
Definition str_of_int (z : Z) : pystr :=
  py (NilZero.string_of_int (Z.to_int z)).

End PyStr.
Export PyStr.

#[global] Opaque py.

(** ** JSON values as [json.loads] builds them

    [None], [bool], [int], [float], [str], [list] and [dict].  A [dict] keeps
    its items in insertion order; the keys of a parsed object are distinct. *)

#[warnings="-register-all"]
Inductive json : Type :=
| JNull
| JBool (b : bool)
| JInt (z : Z)
| JFloat (f : float)
| JStr (s : pystr)
| JList (l : list json)
| JDict (d : list (pystr * json)).

Definition dict : Type := list (pystr * json).

(** [bool(v)]: the truth value Python's [not] and [and] test. *)
Definition truthy (v : json) : bool :=
  match v with
  | JNull => false
  | JBool b => b
  | JInt z => negb (z =? 0)%Z
  | JFloat f => negb (PrimFloat.eqb f 0%float)
  | JStr s => negb (bool_decide (s = []))
  | JList l => match l with [] => false | _ :: _ => true end
  | JDict d => match d with [] => false | _ :: _ => true end
  end.

(** [type(v).__name__], as it appears in the message of an AttributeError. *)
Definition type_name (v : json) : string :=
  match v with
  | JNull => "NoneType"
  | JBool _ => "bool"
  | JInt _ => "int"
  | JFloat _ => "float"
  | JStr _ => "str"
  | JList _ => "list"
  | JDict _ => "dict"
  end.

(** [d.get(k)] as an option and [d.get(k, dflt)]. *)
Fixpoint dict_get (d : dict) (k : pystr) : option json :=
  match d with
  | [] => None
  | (k', v) :: d' => if bool_decide (k' = k) then Some v else dict_get d' k
  end.

Definition dict_get_default (d : dict) (k : pystr) (dflt : json) : json :=
  default dflt (dict_get d k).

(** [v != s] for a string literal [s]: only a [str] can be equal to it. *)
Definition py_ne_str (v : json) (s : pystr) : bool :=
  match v with
  | JStr s' => negb (bool_decide (s' = s))
  | _ => true
  end.

(** ** Exceptions *)

Record exn : Type := Exn { exn_class : pystr; exn_str : pystr }.

Definition AttributeError (v : json) (attr : string) : exn :=
  Exn (py "AttributeError")
      (py "'" ++ py (type_name v) ++ py "' object has no attribute '"
       ++ py attr ++ py "'").

Definition FileNotFoundError (name : pystr) : exn :=
  Exn (py "FileNotFoundError")
      (py "[Errno 2] No such file or directory: '" ++ name ++ py "'").

Definition ValueError_closed : exn :=
  Exn (py "ValueError") (py "I/O operation on closed file.").


(** ** The world a request runs in

    [disk] maps the name of each file that exists to its contents; [handles]
    maps the name of each file object that is still open to the bytes written
    to it and not yet flushed; [trace] is the sequence of observable calls,
    oldest first. *)

(** A call ends in a value or in a raised exception. *)
Inductive outcome (A : Type) : Type :=
| Ret (a : A)
| Raise (e : exn).
Arguments Ret {A} a.
Arguments Raise {A} e.

Definition path : Type := pystr.
Definition bytes : Type := list byte.

Inductive event : Type :=
| EvTempfile (suffix : pystr) (name : path)
    (* tempfile.NamedTemporaryFile(suffix=suffix, delete=False) made [name] *)
| EvTranscribe (name : path) (whisper_opts : dict) (res : outcome dict)
    (* model.transcribe(name, **whisper_opts) was called and ended in [res] *)
| EvUnlink (name : path) (raised : option exn)
    (* os.unlink(name) was called, and returned or raised *)
| EvPrint (args : list pystr).
    (* print of the arguments, already formatted *)

Record world : Type := World {
  disk : gmap path bytes;
  handles : gmap path bytes;
  trace : list event
}.

Definition emit (e : event) (w : world) : world :=
  World (disk w) (handles w) (trace w ++ [e]).

(** ** The monad of a handler: state and exceptions

    A computation takes the world and gives back either a value or a raised
    exception, and the world it leaves.  Only [Exception] subclasses are
    raised here ([KeyboardInterrupt] and [SystemExit] end the process and are
    no request's outcome). *)

Definition M (A : Type) : Type := world -> outcome A * world.

#[global] Instance M_ret : MRet M := fun A a w => (Ret a, w).

#[global] Instance M_bind : MBind M := fun A B k m w =>
  match m w with
  | (Ret a, w') => k a w'
  | (Raise e, w') => (Raise e, w')
  end.

Definition raise {A} (e : exn) : M A := fun w => (Raise e, w).

(** [try: body  except Exception as e: handler(e)]. *)
Definition try_except {A} (body : M A) (handler : exn -> M A) : M A :=
  fun w =>
    match body w with
    | (Ret a, w') => (Ret a, w')
    | (Raise e, w') => handler e w'
    end.

(** [try: body  finally: fin].  The [finally] block runs on both exits; an
    exception of its own replaces the outcome of the body. *)
Definition try_finally {A} (body : M A) (fin : M unit) : M A :=
  fun w =>
    match body w with
    | (r, w') =>
        match fin w' with
        | (Ret _, w'') => (r, w'')
        | (Raise e, w'') => (Raise e, w'')
        end
    end.

(** An outcome decided outside the handler, lifted into the monad. *)
Definition lift {A} (r : outcome A) : M A := fun w => (r, w).

(** [print] of [args].  The standard output is taken to accept the line: a
    print that raises (a closed stream, text the encoding of the stream
    cannot represent) is outside this model, and every statement below that
    says a request is answered is a statement about runs whose prints
    return. *)
Definition print (args : list pystr) : M unit :=
  fun w => (Ret tt, emit (EvPrint args) w).

(** ** What the handler calls but the source file does not define *)

Inductive io_op : Type := OpWrite | OpFlush | OpClose | OpUnlink.

Record Runtime : Type := {
  (** [base64.b64decode(v)]: the decoded bytes, or the exception it raises
      ([binascii.Error], [TypeError], [ValueError]). *)
  b64decode : json -> outcome bytes;
  (** The name [tempfile.NamedTemporaryFile] picks for a suffix, or the
      [OSError] it raises when no file can be created. *)
  tmp_name : world -> pystr -> outcome path;
  (** Whether the operating system refuses an operation on a file, and with
      which exception. *)
  io_error : io_op -> world -> path -> option exn;
  (** [model.transcribe(name, **opts)] of the loaded Whisper model: the
      result dictionary, or the exception it raises. *)
  model_transcribe : world -> path -> dict -> outcome dict;
  (** [repr(v)] of a [float], [list] or [dict]. *)
  repr_value : json -> pystr;
  (** [traceback.format_exc()] while the exception is being handled. *)
  format_exc : exn -> pystr
}.

Section Server.

Context (rt : Runtime).

(** ** Python operations the handler uses *)

(** [format(v, "")], what an f-string does with [{v}]. *)
Definition format_value (v : json) : pystr :=
  match v with
  | JNull => py "None"
  | JBool true => py "True"
  | JBool false => py "False"
  | JInt z => str_of_int z
  | JStr s => s
  | JFloat _ | JList _ | JDict _ => repr_value rt v
  end.

(** [v.get(k, dflt)]: only a [dict] has the method. *)
Definition py_get (v : json) (k : pystr) (dflt : json) : M json :=
  match v with
  | JDict d => mret (dict_get_default d k dflt)
  | _ => raise (AttributeError v "get")
  end.

(** [v.endswith(t)]: only a [str] has the method. *)
Definition py_endswith (v : json) (t : pystr) : M bool :=
  match v with
  | JStr s => mret (endswith s t)
  | _ => raise (AttributeError v "endswith")
  end.

(** [v.strip()]: only a [str] has the method. *)
Definition py_strip (v : json) : M pystr :=
  match v with
  | JStr s => mret (strip s)
  | _ => raise (AttributeError v "strip")
  end.

(** [tempfile.NamedTemporaryFile(suffix=suffix, delete=False)]: a new empty
    file on disk and an open file object for it. *)
Definition NamedTemporaryFile (suffix : pystr) : M path :=
  fun w =>
    match tmp_name rt w suffix with
    | Ret name =>
        (Ret name,
         emit (EvTempfile suffix name)
           (World (<[name := []]> (disk w)) (<[name := []]> (handles w))
              (trace w)))
    | Raise e => (Raise e, w)
    end.

(** [tmp.write(b)]: the bytes go to the buffer of the file object. *)
Definition file_write (name : path) (b : bytes) : M unit :=
  fun w =>
    match io_error rt OpWrite w name with
    | Some e => (Raise e, w)
    | None =>
        match handles w !! name with
        | Some buf =>
            (Ret tt,
             World (disk w) (<[name := buf ++ b]> (handles w)) (trace w))
        | None => (Raise ValueError_closed, w)
        end
    end.

(** [tmp.flush()]: the buffer reaches the disk. *)
Definition file_flush (name : path) : M unit :=
  fun w =>
    match io_error rt OpFlush w name with
    | Some e => (Raise e, w)
    | None =>
        match handles w !! name with
        | Some buf =>
            (Ret tt,
             World (<[name := default [] (disk w !! name) ++ buf]> (disk w))
               (<[name := []]> (handles w)) (trace w))
        | None => (Raise ValueError_closed, w)
        end
    end.

(** [tmp.close()]: flushes and gives up the file object; closing a closed
    file does nothing. *)
Definition file_close (name : path) : M unit :=
  fun w =>
    match io_error rt OpClose w name with
    | Some e => (Raise e, w)
    | None =>
        match handles w !! name with
        | Some buf =>
            (Ret tt,
             World (<[name := default [] (disk w !! name) ++ buf]> (disk w))
               (delete name (handles w)) (trace w))
        | None => (Ret tt, w)
        end
    end.

(** [os.unlink(name)]. *)
Definition os_unlink (name : path) : M unit :=
  fun w =>
    match io_error rt OpUnlink w name with
    | Some e => (Raise e, emit (EvUnlink name (Some e)) w)
    | None =>
        match disk w !! name with
        | Some _ =>
            (Ret tt,
             emit (EvUnlink name None)
               (World (delete name (disk w)) (handles w) (trace w)))
        | None =>
            (Raise (FileNotFoundError name),
             emit (EvUnlink name (Some (FileNotFoundError name))) w)
        end
    end.

(** [model.transcribe(name, **whisper_opts)]. *)
Definition model_call (name : path) (whisper_opts : dict) : M dict :=
  fun w =>
    let res := model_transcribe rt w name whisper_opts in
    (res, emit (EvTranscribe name whisper_opts res) w).

(** [flask.jsonify(d)] and a handler's answer: the JSON body and the HTTP
    status (200 when the handler returns the body alone). *)
Definition jsonify (d : dict) : json := JDict d.

Definition response : Type := json * Z.

(** The body of a request as [request.get_json(force=True)] sees it: bytes
    that are empty or not JSON make it raise werkzeug's [BadRequest] (the
    call is not silent); otherwise it returns the parsed value. *)
Inductive request_body : Type :=
| Malformed (bad_request : exn)
| Parsed (payload : json).

Definition get_json (request : request_body) : M json :=
  match request with
  | Malformed bad_request => raise bad_request
  | Parsed payload => mret payload
  end.

(** ** The handlers *)

Definition msg_empty_json : pystr :=
  py "Request JSON vac" ++ [237%N] ++ py "o".

Definition msg_missing_data : pystr := py "Falta campo 'data' (base64)".

Definition resp_empty_json : response :=
  (jsonify [(py "ok", JBool false); (py "error", JStr msg_empty_json)], 400%Z).

Definition resp_missing_data : response :=
  (jsonify [(py "ok", JBool false); (py "error", JStr msg_missing_data)],
   400%Z).

(** Lines 51-53: the options of the model call. *)
Definition whisper_opts_of (language : json) : dict :=
  if truthy language && py_ne_str language (py "auto")
  then [(py "language", language)]
  else [].

(** Lines 46-57: the body of the inner [try]. *)
Definition transcribe_file (tmp : path) (data_b64 language : json) : M pystr :=
  audio ← lift (b64decode rt data_b64);
  file_write tmp audio;;
  file_flush tmp;;
  file_close tmp;;
  let whisper_opts := whisper_opts_of language in
  print [py "Transcribiendo " ++ tmp ++ py " (lang="
         ++ format_value language ++ py ")"];;
  result ← model_call tmp whisper_opts;
  py_strip (dict_get_default result (py "text") (JStr [])).

(** Lines 59-62: the [finally] block; what [os.unlink] raises is dropped. *)
Definition cleanup (tmp : path) : M unit :=
  try_except (os_unlink tmp) (fun _ => mret tt).

(** Lines 43: the suffix of the temporary file. *)
Definition suffix_of (filename : json) (fmt : json) : M pystr :=
  ends ← py_endswith filename (py "." ++ format_value fmt);
  mret (if negb ends then py "." ++ format_value fmt else []).

(** Lines 30-64: the body of the outer [try]. *)
Definition transcribe_try (request : request_body) : M response :=
  payload ← get_json request;
  if negb (truthy payload) then mret resp_empty_json
  else
    data_b64 ← py_get payload (py "data") JNull;
    if negb (truthy data_b64) then mret resp_missing_data
    else
      filename ← py_get payload (py "filename") (JStr (py "audio"));
      fmt ← py_get payload (py "format") (JStr (py "wav"));
      language ← py_get payload (py "language") (JStr (py "auto"));
      suffix ← suffix_of filename fmt;
      tmp ← NamedTemporaryFile suffix;
      text ← try_finally (transcribe_file tmp data_b64 language) (cleanup tmp);
      mret (jsonify [(py "ok", JBool true); (py "text", JStr text)], 200%Z).

(** Lines 65-68: the handler of the outer [try]. *)
Definition on_exception (e : exn) : M response :=
  let tb := format_exc rt e in
  print [py "ERROR en transcribe:"; tb];;
  mret (jsonify [(py "ok", JBool false); (py "error", JStr (exn_str e));
                 (py "trace", JStr tb)], 500%Z).

(** [POST /transcribe]. *)
Definition transcribe (request : request_body) : M response :=
  try_except (transcribe_try request) on_exception.

End Server.

(** ** The module state and the application *)

(** Lines 17-20: what the module computes once, when it is loaded. *)
Record module_state : Type := {
  MODEL_NAME : pystr;
  device : pystr
}.

Definition startup (environ : gmap pystr pystr) (cuda_is_available : bool)
  : module_state :=
  {| MODEL_NAME := default (py "base") (environ !! py "WHISPER_MODEL");
     device := if cuda_is_available then py "cuda" else py "cpu" |}.

(** [GET /health]. *)
Definition health (st : module_state) : M response :=
  mret (jsonify [(py "ok", JBool true); (py "model", JStr (MODEL_NAME st))],
        200%Z).

(** The two routes, and the application answering a sequence of requests one
    after the other. *)
Inductive http_request : Type :=
| GET_health
| POST_transcribe (body : request_body).

Definition dispatch (rt : Runtime) (st : module_state) (r : http_request)
  : M response :=
  match r with
  | GET_health => health st
  | POST_transcribe body => transcribe rt body
  end.

Fixpoint serve (rt : Runtime) (st : module_state) (rs : list http_request)
  (w : world) : list (outcome response) * world :=
  match rs with
  | [] => ([], w)
  | r :: rs' =>
      let '(o, w1) := dispatch rt st r w in
      let '(os, w2) := serve rt st rs' w1 in
      (o :: os, w2)
  end.

(** ** Concrete runtimes

    [base64.b64decode] of CPython with [validate=False]: characters outside
    the alphabet are skipped, and the data characters left must fill whole
    groups up to padding. *)

Module Base64.

#[local] Open Scope N_scope.

Definition table_a2b (c : N) : option N :=
  if (65 <=? c) && (c <=? 90) then Some (c - 65)
  else if (97 <=? c) && (c <=? 122) then Some (c - 97 + 26)
  else if (48 <=? c) && (c <=? 57) then Some (c - 48 + 52)
  else if c =? 43 then Some 62
  else if c =? 47 then Some 63
  else None.

Definition byte_of (n : N) : byte :=
  default "000"%byte (Byte.of_N (n mod 256)).

Definition binascii_Error (msg : pystr) : exn :=
  Exn (py "binascii.Error") msg.

(** The loop of [binascii.a2b_base64]: [quad_pos] is the position in the
    current group of four, [leftchar] the bits not yet written, [pads] the
    padding characters seen since the last data character. *)
Fixpoint a2b_base64 (s : list N) (quad_pos leftchar pads : N) (out : bytes)
  : outcome bytes :=
  match s with
  | [] =>
      if quad_pos =? 0 then Ret out
      else if quad_pos =? 1 then
        Raise (binascii_Error
                 (py "Invalid base64-encoded string: number of data characters ("
                  ++ str_of_int (Z.of_nat (length out) / 3 * 4 + 1)
                  ++ py ") cannot be 1 more than a multiple of 4"))
      else Raise (binascii_Error (py "Incorrect padding"))
  | c :: s' =>
      if c =? 61 then
        if (2 <=? quad_pos) && (4 <=? quad_pos + (pads + 1)) then Ret out
        else a2b_base64 s' quad_pos leftchar
               (if 2 <=? quad_pos then pads + 1 else pads) out
      else
        match table_a2b c with
        | None => a2b_base64 s' quad_pos leftchar pads out
        | Some v =>
            if quad_pos =? 0 then a2b_base64 s' 1 v 0 out
            else if quad_pos =? 1 then
              a2b_base64 s' 2 (N.land v 15) 0
                (out ++ [byte_of (N.lor (N.shiftl leftchar 2) (N.shiftr v 4))])
            else if quad_pos =? 2 then
              a2b_base64 s' 3 (N.land v 3) 0
                (out ++ [byte_of (N.lor (N.shiftl leftchar 4) (N.shiftr v 2))])
            else
              a2b_base64 s' 0 0 0
                (out ++ [byte_of (N.lor (N.shiftl leftchar 6) v)])
        end
  end.

Definition b64decode (v : json) : outcome bytes :=
  match v with
  | JStr s =>
      if forallb (fun c => c <? 128) s then a2b_base64 s 0 0 0 []
      else Raise (Exn (py "ValueError")
                    (py "string argument should contain only ASCII characters"))
  | _ =>
      Raise (Exn (py "TypeError")
               (py "argument should be a bytes-like object or ASCII string, not '"
                ++ py (type_name v) ++ py "'"))
  end.

End Base64.

Definition PermissionError (name : path) : exn :=
  Exn (py "PermissionError")
      (py "[WinError 32] The process cannot access the file because it is being used by another process: '"
       ++ name ++ py "'").

(** A system on which every file operation succeeds, with a model that
    answers [result]. *)
Definition posix_runtime (result : dict) : Runtime :=
  {| b64decode := Base64.b64decode;
     tmp_name := fun w suffix =>
       Ret (py "/tmp/tmp" ++ str_of_int (Z.of_nat (length (trace w))) ++ suffix);
     io_error := fun _ _ _ => None;
     model_transcribe := fun _ _ _ => Ret result;
     repr_value := fun _ => py "...";
     format_exc := fun e =>
       py "Traceback (most recent call last): " ++ exn_class e ++ py ": "
       ++ exn_str e |}.

(** The same, except that a file cannot be removed while a file object for
    it is open (the rule of Windows). *)
Definition windows_runtime (result : dict) : Runtime :=
  {| b64decode := Base64.b64decode;
     tmp_name := tmp_name (posix_runtime result);
     io_error := fun op w name =>
       match op, handles w !! name with
       | OpUnlink, Some _ => Some (PermissionError name)
       | _, _ => None
       end;
     model_transcribe := fun _ _ _ => Ret result;
     repr_value := repr_value (posix_runtime result);
     format_exc := format_exc (posix_runtime result) |}.

Definition empty_world : world := World ∅ ∅ [].

Definition hola : dict :=
  [(py "text", JStr (py " hola mundo ")); (py "language", JStr (py "es"))].


(** ** Observations on a run *)

(** The events a computation added to the trace. *)
Definition new_events (w w' : world) : list event :=
  drop (length (trace w)) (trace w').

(** A field of the JSON object a response carries, and its status. *)
Definition body_field (r : response) (k : pystr) : option json :=
  match r.1 with
  | JDict d => dict_get d k
  | _ => None
  end.

Definition status (r : response) : Z := r.2.

(** A string with no whitespace at either end. *)
Definition trimmed (s : pystr) : Prop :=
  (forall c, head s = Some c -> isspace c = false)
  /\ (forall c, last s = Some c -> isspace c = false).

(** The three optional fields of a payload, with the defaults of lines
    38-40. *)
Definition filename_of (d : dict) : json :=
  dict_get_default d (py "filename") (JStr (py "audio")).

Definition format_of (d : dict) : json :=
  dict_get_default d (py "format") (JStr (py "wav")).

Definition language_of (d : dict) : json :=
  dict_get_default d (py "language") (JStr (py "auto")).

(** A body [get_json] raises on or returns a false value for. *)
Definition empty_or_malformed (request : request_body) : Prop :=
  match request with
  | Malformed _ => True
  | Parsed payload => truthy payload = false
  end.

(** Writing, flushing and closing leave the trace alone and remove no
    file. *)
Definition quiet (tmp : path) (m : M unit) : Prop :=
  forall w o w', m w = (o, w') ->
    trace w' = trace w /\ (is_Some (disk w !! tmp) -> is_Some (disk w' !! tmp)).

(** The required field of a payload. *)
Definition data_of (d : dict) : json := dict_get_default d (py "data") JNull.

(** The suffix line 43 computes once the filename is known to be a [str]. *)
Definition suffix_for (rt : Runtime) (d : dict) (filename : pystr) : pystr :=
  let ext := py "." ++ format_value rt (format_of d) in
  if endswith filename ext then [] else ext.

(** The world right after [NamedTemporaryFile] made [tmp]. *)
Definition created (suffix : pystr) (tmp : path) (w : world) : world :=
  emit (EvTempfile suffix tmp)
    (World (<[tmp := []]> (disk w)) (<[tmp := []]> (handles w)) (trace w)).

(** Lines 64-68 after the [finally] block: the answer for the outcome [r] of
    the inner [try]. *)
Definition answer (rt : Runtime) (r : outcome pystr) : M response :=
  match r with
  | Ret text =>
      mret (jsonify [(py "ok", JBool true); (py "text", JStr text)], 200%Z)
  | Raise e => on_exception rt e
  end.

(** The paths through [transcribe], one constructor for each way the handler
    can go; [transcribe_paths] below shows that every run takes one. *)
Inductive transcribe_path (rt : Runtime) (w : world)
  : request_body -> outcome response * world -> Prop :=
| path_malformed e :
    transcribe_path rt w (Malformed e) (on_exception rt e w)
| path_empty payload :
    truthy payload = false ->
    transcribe_path rt w (Parsed payload) (Ret resp_empty_json, w)
| path_not_dict payload :
    truthy payload = true ->
    (forall d, payload <> JDict d) ->
    transcribe_path rt w (Parsed payload)
      (on_exception rt (AttributeError payload "get") w)
| path_no_data d :
    d <> [] ->
    truthy (data_of d) = false ->
    transcribe_path rt w (Parsed (JDict d)) (Ret resp_missing_data, w)
| path_bad_filename d :
    truthy (data_of d) = true ->
    (forall filename, filename_of d <> JStr filename) ->
    transcribe_path rt w (Parsed (JDict d))
      (on_exception rt (AttributeError (filename_of d) "endswith") w)
| path_no_tempfile d filename e :
    truthy (data_of d) = true ->
    filename_of d = JStr filename ->
    tmp_name rt w (suffix_for rt d filename) = Raise e ->
    transcribe_path rt w (Parsed (JDict d)) (on_exception rt e w)
| path_tempfile d filename tmp r w2 raised w3 :
    truthy (data_of d) = true ->
    filename_of d = JStr filename ->
    tmp_name rt w (suffix_for rt d filename) = Ret tmp ->
    transcribe_file rt tmp (data_of d) (language_of d)
      (created (suffix_for rt d filename) tmp w) = (r, w2) ->
    cleanup rt tmp w2 = (Ret tt, w3) ->
    trace w3 = trace w2 ++ [EvUnlink tmp raised] ->
    (raised = None -> disk w3 !! tmp = None) ->
    (raised <> None -> disk w3 = disk w2) ->
    transcribe_path rt w (Parsed (JDict d)) (answer rt r w3).

(** The two answers that depend on the run: line 64 and line 68. *)
Definition resp_ok (text : pystr) : response :=
  (jsonify [(py "ok", JBool true); (py "text", JStr text)], 200%Z).

Definition resp_error (rt : Runtime) (e : exn) : response :=
  (jsonify [(py "ok", JBool false); (py "error", JStr (exn_str e));
            (py "trace", JStr (format_exc rt e))], 500%Z).

(** An event that is a [print]. *)
Definition is_print (ev : event) : Prop := exists args, ev = EvPrint args.

(** What lines 56-57 make of the outcome of the model call. *)
Definition text_of_result (res : outcome dict) : outcome pystr :=
  match res with
  | Ret result =>
      match dict_get_default result (py "text") (JStr []) with
      | JStr t0 => Ret (strip t0)
      | v => Raise (AttributeError v "strip")
      end
  | Raise e => Raise e
  end.

(** ** Requests used as examples *)

Definition BadRequest : exn :=
  Exn (py "BadRequest")
      (py "400 Bad Request: The browser (or proxy) sent a request that this server could not understand.").

Definition req_malformed : request_body := Malformed BadRequest.

Definition req_empty_object : request_body := Parsed (JDict []).

Definition hola_b64 : json := JStr (py "aG9sYQ==").

Definition req_hola : request_body := Parsed (JDict [(py "data", hola_b64)]).

Definition req_no_data : dict :=
  [(py "filename", JStr (py "nota.wav")); (py "format", JStr (py "wav"));
   (py "language", JStr (py "es"))].

Definition req_empty_data : dict :=
  [(py "data", JStr []); (py "format", JStr (py "wav"))].

Definition req_bad_base64 : dict :=
  [(py "data", JStr (py "not-valid-base64!!")); (py "format", JStr (py "wav"))].

Definition req_empty_language : dict :=
  [(py "data", hola_b64); (py "language", JStr [])].

Definition req_spanish : dict :=
  [(py "data", hola_b64); (py "language", JStr (py "es"))].

Definition req_named : dict :=
  [(py "data", hola_b64); (py "filename", JStr (py "nota.mp3"));
   (py "format", JStr (py "mp3"))].

Definition tmp0 (suffix : string) : path := py "/tmp/tmp0" ++ py suffix.

(** ** Further runtimes and observations *)

(** A runtime that differs from [rt] only in what [os.unlink] raises. *)
Definition with_unlink_error (rt : Runtime)
  (refuse : world -> path -> option exn) : Runtime :=
  {| b64decode := b64decode rt;
     tmp_name := tmp_name rt;
     io_error := fun op w name =>
       match op with
       | OpUnlink => refuse w name
       | _ => io_error rt op w name
       end;
     model_transcribe := model_transcribe rt;
     repr_value := repr_value rt;
     format_exc := format_exc rt |}.

Definition FileExistsError : exn :=
  Exn (py "FileExistsError")
      (py "[Errno 17] No usable temporary file name found").

(** [posix_runtime], with the exclusive creation of [tempfile]: a name that
    is taken is never handed out. *)
Definition exclusive_runtime (result : dict) : Runtime :=
  {| b64decode := Base64.b64decode;
     tmp_name := fun w suffix =>
       let name := py "/tmp/tmp" ++ str_of_int (Z.of_nat (length (trace w)))
                   ++ suffix in
       if decide (disk w !! name = None) then Ret name
       else Raise FileExistsError;
     io_error := fun _ _ _ => None;
     model_transcribe := fun _ _ _ => Ret result;
     repr_value := repr_value (posix_runtime result);
     format_exc := format_exc (posix_runtime result) |}.

(** [posix_runtime] with a model that raises [e]. *)
Definition failing_runtime (e : exn) : Runtime :=
  {| b64decode := Base64.b64decode;
     tmp_name := tmp_name (posix_runtime []);
     io_error := fun _ _ _ => None;
     model_transcribe := fun _ _ _ => Raise e;
     repr_value := repr_value (posix_runtime []);
     format_exc := format_exc (posix_runtime []) |}.

Definition OutOfMemoryError : exn :=
  Exn (py "OutOfMemoryError") (py "CUDA out of memory.").

(** The line the outer handler prints (line 67). *)
Definition error_line (rt : Runtime) (e : exn) : event :=
  EvPrint [py "ERROR en transcribe:"; format_exc rt e].

(** ** Loading the module (lines 9-21)

    What the process finds when it starts: whether [import whisper] raises,
    the environment, whether CUDA is there, and whether
    [whisper.load_model(name, device=device)] raises.  The imports of lines
    2-7 are taken to succeed. *)
Record Host : Type := {
  import_whisper : option exn;
  environ : gmap pystr pystr;
  cuda_is_available : bool;
  load_model : pystr -> pystr -> option exn
}.

Inductive boot_event : Type :=
| BootPrint (args : list pystr)
| BootLoadModel (name device : pystr).

Definition RuntimeError_whisper : exn :=
  Exn (py "RuntimeError")
      (py "Falta instalar whisper. Ejecuta: pip install openai-whisper").

(** The module body: the outcome of loading it and what it did on the way. *)
Definition load_module (h : Host) : outcome module_state * list boot_event :=
  match import_whisper h with
  | Some _ => (Raise RuntimeError_whisper, [])
  | None =>
      let st := startup (environ h) (cuda_is_available h) in
      let loading :=
        [BootPrint [py "Cargando modelo Whisper:"; MODEL_NAME st];
         BootLoadModel (MODEL_NAME st) (device st)] in
      match load_model h (MODEL_NAME st) (device st) with
      | Some e => (Raise e, loading)
      | None => (Ret st, loading ++ [BootPrint [py "Modelo cargado."]])
      end
  end.

Definition is_load (ev : boot_event) : bool :=
  match ev with
  | BootLoadModel _ _ => true
  | BootPrint _ => false
  end.

(** A host with whisper installed, no GPU and WHISPER_MODEL=small. *)
Definition host_small : Host :=
  {| import_whisper := None;
     environ := {[ py "WHISPER_MODEL" := py "small" ]};
     cuda_is_available := false;
     load_model := fun _ _ => None |}.

(** Model results and payloads for the edge cases. *)
Definition silence : dict := [(py "language", JStr (py "en"))].

Definition blank : dict := [(py "text", JStr (py "   "))].

Definition no_text : dict := [(py "text", JNull)].

Definition req_array : json := JList [JInt 1; JInt 2].

Definition req_null_filename : dict :=
  [(py "data", hola_b64); (py "filename", JNull)].

(** * Properties *)

(** ** Stripping *)

Lemma lstrip_split s :
  exists l, s = l ++ lstrip s /\ Forall (fun c => isspace c = true) l.
Proof.
  induction s as [|c s [l [Hs Hl]]]; simpl.
  - exists []. split; [reflexivity | constructor].
  - destruct (isspace c) eqn:Hc.
    + exists (c :: l). split; [simpl; congruence | by constructor].
    + exists []. split; [reflexivity | constructor].
Qed.

Lemma lstrip_head s c : head (lstrip s) = Some c -> isspace c = false.
Proof.
  induction s as [|a s IH]; simpl; [discriminate|].
  destruct (isspace a) eqn:Ha; [exact IH|].
  simpl. intros [= <-]. exact Ha.
Qed.

Lemma rstrip_split s :
  exists r, s = rstrip s ++ r /\ Forall (fun c => isspace c = true) r.
Proof.
  unfold rstrip.
  destruct (lstrip_split (reverse s)) as [l [Hs Hl]].
  exists (reverse l). split.
  - rewrite <- reverse_app, <- Hs. by rewrite reverse_involutive.
  - by apply Forall_reverse.
Qed.

Lemma rstrip_last s c : last (rstrip s) = Some c -> isspace c = false.
Proof. unfold rstrip. rewrite last_reverse. apply lstrip_head. Qed.

Lemma rstrip_head s c : head (rstrip s) = Some c -> head s = Some c.
Proof.
  destruct (rstrip_split s) as [r [Hs _]]. intros H.
  rewrite Hs. rewrite head_app. by rewrite H.
Qed.

Lemma strip_trimmed s : trimmed (strip s).
Proof.
  split; intros c H.
  - apply (lstrip_head s). by apply rstrip_head.
  - by apply (rstrip_last (lstrip s)).
Qed.

Lemma strip_split s :
  exists l r, s = l ++ strip s ++ r
              /\ Forall (fun c => isspace c = true) l
              /\ Forall (fun c => isspace c = true) r.
Proof.
  destruct (lstrip_split s) as [l [Hs Hl]].
  destruct (rstrip_split (lstrip s)) as [r [Ht Hr]].
  exists l, r. unfold strip. rewrite <- Ht. auto.
Qed.

(** ** Running the pieces of the handler *)

Section Runs.

Context (rt : Runtime).

Ltac run_step H :=
  match type of H with
  | context [match ?x with _ => _ end] => destruct x eqn:?
  end.

Lemma on_exception_run e w :
  on_exception rt e w
  = (Ret (jsonify [(py "ok", JBool false); (py "error", JStr (exn_str e));
                   (py "trace", JStr (format_exc rt e))], 500%Z),
     emit (EvPrint [py "ERROR en transcribe:"; format_exc rt e]) w).
Proof. reflexivity. Qed.

(** The [finally] block never raises; it calls [os.unlink] once, and the
    file is gone exactly when that call returned. *)
Lemma cleanup_run tmp w :
  exists raised w',
    cleanup rt tmp w = (Ret tt, w')
    /\ trace w' = trace w ++ [EvUnlink tmp raised]
    /\ (raised = None -> disk w' !! tmp = None)
    /\ (raised <> None -> disk w' = disk w).
Proof.
  unfold cleanup, try_except, os_unlink.
  destruct (io_error rt OpUnlink w tmp) as [e|] eqn:Herr.
  - exists (Some e), (emit (EvUnlink tmp (Some e)) w). simpl.
    split; [reflexivity|]. split; [reflexivity|].
    split; [discriminate | reflexivity].
  - destruct (disk w !! tmp) as [content|] eqn:Hfile.
    + eexists None, _. split; [reflexivity|]. simpl.
      split; [reflexivity|]. split; [|congruence].
      intros _. apply lookup_delete_eq.
    + eexists (Some _), _. split; [reflexivity|]. simpl.
      split; [reflexivity|]. split; [congruence | reflexivity].
Qed.

Lemma file_write_quiet tmp b : quiet tmp (file_write rt tmp b).
Proof.
  intros w o w'. unfold file_write. intros H.
  repeat (run_step H; simplify_eq/=); auto.
Qed.

Lemma file_flush_quiet tmp : quiet tmp (file_flush rt tmp).
Proof.
  intros w o w'. unfold file_flush. intros H.
  repeat (run_step H; simplify_eq/=); auto.
  split; [done|]. intros _. rewrite lookup_insert_eq. by eexists.
Qed.

Lemma file_close_quiet tmp : quiet tmp (file_close rt tmp).
Proof.
  intros w o w'. unfold file_close. intros H.
  repeat (run_step H; simplify_eq/=); auto.
  split; [done|]. intros _. rewrite lookup_insert_eq. by eexists.
Qed.

(** The inner [try] block: either it raises before the model is reached and
    leaves the trace alone, or it prints one line and calls the model once,
    with the options of lines 51-53, and strips the text of the result. *)
Lemma transcribe_file_run tmp data_b64 language w r w' :
  transcribe_file rt tmp data_b64 language w = (r, w') ->
  (is_Some (disk w !! tmp) -> is_Some (disk w' !! tmp))
  /\ (forall e, b64decode rt data_b64 = Raise e -> r = Raise e)
  /\ ((exists e, r = Raise e /\ trace w' = trace w)
      \/ (exists line res,
            trace w' = trace w ++ [EvPrint [line];
                                   EvTranscribe tmp (whisper_opts_of language) res]
            /\ r = text_of_result res)).
Proof.
  unfold transcribe_file, mbind, M_bind, lift.
  destruct (b64decode rt data_b64) as [audio|e] eqn:Hdec.
  2:{ intros [= <- <-]. split; [done|]. split; [congruence|]. left. eauto. }
  destruct (file_write rt tmp audio w) as [[[]|e] w1] eqn:H1;
    apply file_write_quiet in H1 as [Ht1 Hd1].
  2:{ intros [= <- <-]. split; [done|]. split; [congruence|]. left. eauto. }
  destruct (file_flush rt tmp w1) as [[[]|e] w2] eqn:H2;
    apply file_flush_quiet in H2 as [Ht2 Hd2].
  2:{ intros [= <- <-]. split; [auto|]. split; [congruence|].
      left. eexists. split; [done | congruence]. }
  destruct (file_close rt tmp w2) as [[[]|e] w3] eqn:H3;
    apply file_close_quiet in H3 as [Ht3 Hd3].
  2:{ intros [= <- <-]. split; [auto|]. split; [congruence|].
      left. eexists. split; [done | congruence]. }
  unfold print, model_call, py_strip, text_of_result, mret, M_ret, raise.
  simpl.
  set (line := py "Transcribiendo " ++ tmp ++ py " (lang="
               ++ format_value rt language ++ py ")").
  set (res := model_transcribe rt (emit (EvPrint [line]) w3) tmp
                (whisper_opts_of language)).
  intros H.
  assert (w' = emit (EvTranscribe tmp (whisper_opts_of language) res)
                 (emit (EvPrint [line]) w3)
          /\ r = text_of_result res) as [-> ->].
  { unfold text_of_result.
    destruct res as [result|e]; [|by simplify_eq].
    destruct (dict_get_default result (py "text") (JStr []));
      by simplify_eq. }
  split; [auto|]. split; [congruence|].
  right. exists line, res. split; [|reflexivity].
  simpl. rewrite <- app_assoc, Ht3, Ht2, Ht1. reflexivity.
Qed.

(** Every run of the handler takes one of the paths. *)
Lemma transcribe_paths request w :
  transcribe_path rt w request (transcribe rt request w).
Proof.
  unfold transcribe, try_except, transcribe_try.
  destruct request as [e|payload]; [apply path_malformed|].
  unfold mbind, M_bind, get_json, mret, M_ret.
  destruct (truthy payload) eqn:Hpayload; simpl; [|by apply path_empty].
  destruct payload as [| | | | | |d];
    try (by apply path_not_dict).
  unfold py_get, mret, M_ret. fold (data_of d).
  destruct (truthy (data_of d)) eqn:Hdata; simpl.
  2:{ apply path_no_data; [|done]. by destruct d. }
  fold (filename_of d) (format_of d) (language_of d).
  unfold suffix_of, py_endswith, mbind, M_bind, mret, M_ret, raise.
  destruct (filename_of d) as [| | | |filename| |] eqn:Hname;
    try (rewrite <- Hname; apply path_bad_filename;
         [done | rewrite Hname; congruence]).
  fold (suffix_for rt d filename).
  unfold NamedTemporaryFile.
  replace (if negb (endswith filename (py "." ++ format_value rt (format_of d)))
           then py "." ++ format_value rt (format_of d) else [])
    with (suffix_for rt d filename)
    by (unfold suffix_for; by destruct (endswith _ _)).
  destruct (tmp_name rt w (suffix_for rt d filename)) as [tmp|e] eqn:Htmp.
  2:{ by eapply path_no_tempfile. }
  fold (created (suffix_for rt d filename) tmp w).
  unfold try_finally.
  destruct (transcribe_file rt tmp (data_of d) (language_of d)
              (created (suffix_for rt d filename) tmp w)) as [r w2] eqn:Hfile.
  destruct (cleanup_run tmp w2) as (raised & w3 & Hclean & Htrace & Hgone & Hkept).
  rewrite Hclean.
  destruct r as [text|e]; simpl.
  - change (transcribe_path rt w (Parsed (JDict d)) (answer rt (Ret text) w3)).
    by eapply path_tempfile.
  - change (transcribe_path rt w (Parsed (JDict d)) (answer rt (Raise e) w3)).
    by eapply path_tempfile.
Qed.

Lemma answer_run r w :
  exists tail,
    (answer rt r w).2 = World (disk w) (handles w) (trace w ++ tail)
    /\ Forall is_print tail
    /\ (answer rt r w).1
       = Ret (match r with
              | Ret text => resp_ok text
              | Raise e => resp_error rt e
              end).
Proof.
  destruct r as [text|e]; simpl.
  - exists []. rewrite app_nil_r. by destruct w.
  - eexists [_]. repeat split. repeat constructor. by eexists.
Qed.

(** The handler always answers, with one of four bodies. *)
Lemma transcribe_response request w :
  exists resp w',
    transcribe rt request w = (Ret resp, w')
    /\ (resp = resp_empty_json \/ resp = resp_missing_data
        \/ (exists e, resp = resp_error rt e)
        \/ (exists text, resp = resp_ok text)).
Proof.
  destruct (transcribe_paths request w);
    try (eexists _, _; split; [reflexivity | by eauto 6]).
  destruct r as [text|e]; eexists _, _; (split; [reflexivity | by eauto 6]).
Qed.

(** The events of a run: prints only, or one temporary file, then at most
    one line and one model call, then one [os.unlink] of that file, then
    prints only.  The file is on disk afterwards exactly when [os.unlink]
    raised. *)
Lemma transcribe_events request w :
  exists evs,
    trace (transcribe rt request w).2 = trace w ++ evs
    /\ (Forall is_print evs
        \/ exists d filename tmp mid raised tail,
             request = Parsed (JDict d)
             /\ truthy (data_of d) = true
             /\ filename_of d = JStr filename
             /\ evs = EvTempfile (suffix_for rt d filename) tmp
                      :: mid ++ EvUnlink tmp raised :: tail
             /\ Forall is_print tail
             /\ Forall (fun ev => is_print ev
                          \/ exists res,
                               ev = EvTranscribe tmp
                                      (whisper_opts_of (language_of d)) res)
                  mid
             /\ (raised = None -> disk (transcribe rt request w).2 !! tmp = None)
             /\ (raised <> None
                 -> is_Some (disk (transcribe rt request w).2 !! tmp))).
Proof.
  destruct (transcribe_paths request w) as
    [e|payload Hp|payload Hp Hnd|d Hd Hdata|d Hdata Hname|d filename e Hdata Hname Htmp
    |d filename tmp r w2 raised w3 Hdata Hname Htmp Hfile Hclean Htrace Hgone Hkept].
  1,3,5,6: (eexists [_]; split; [reflexivity|]; left;
            repeat constructor; by eexists).
  1,2: (exists []; split; [by rewrite app_nil_r | by left]).
  destruct (answer_run r w3) as (tail & Hw & Htail & _).
  apply transcribe_file_run in Hfile as (Hdisk & _ & Hmid).
  assert (exists mid,
             trace w2 = trace (created (suffix_for rt d filename) tmp w) ++ mid
             /\ Forall (fun ev => is_print ev
                          \/ exists res,
                               ev = EvTranscribe tmp
                                      (whisper_opts_of (language_of d)) res)
                  mid) as (mid & Hw2 & Hmid').
  { destruct Hmid as [(e & _ & Ht)|(line & res & Ht & _)].
    - exists []. by rewrite app_nil_r.
    - eexists. split; [exact Ht|].
      constructor; [left; by eexists|].
      constructor; [right; by eexists | constructor]. }
  exists (EvTempfile (suffix_for rt d filename) tmp
            :: mid ++ EvUnlink tmp raised :: tail).
  rewrite Hw. simpl. split.
  - rewrite Htrace, Hw2. simpl. rewrite <- !app_assoc. reflexivity.
  - right. exists d, filename, tmp, mid, raised, tail.
    repeat split; try done.
    intros Hr. rewrite (Hkept Hr). apply Hdisk. simpl.
    rewrite lookup_insert_eq. by eexists.
Qed.

Lemma new_events_app w w' evs :
  trace w' = trace w ++ evs -> new_events w w' = evs.
Proof. unfold new_events. intros ->. apply drop_app_length. Qed.

End Runs.

(** ** What a run leaves in the trace *)

Lemma not_print_tempfile suffix name : ~ is_print (EvTempfile suffix name).
Proof. by intros [args ?]. Qed.

Lemma not_print_transcribe name opts res :
  ~ is_print (EvTranscribe name opts res).
Proof. by intros [args ?]. Qed.

(** A temporary file in the events of a run: the request carried a payload
    with true [data] and a [str] filename, the suffix is the one of line 43,
    and the run went on to [os.unlink] that file. *)
Lemma transcribe_tempfile_inv rt request w suffix name :
  In (EvTempfile suffix name) (new_events w (transcribe rt request w).2) ->
  exists d filename mid raised tail,
    request = Parsed (JDict d)
    /\ filename_of d = JStr filename
    /\ suffix = suffix_for rt d filename
    /\ new_events w (transcribe rt request w).2
       = EvTempfile suffix name :: mid ++ EvUnlink name raised :: tail
    /\ (raised = None -> disk (transcribe rt request w).2 !! name = None)
    /\ (raised <> None -> is_Some (disk (transcribe rt request w).2 !! name)).
Proof.
  destruct (transcribe_events rt request w) as (evs & Hevs & Hshape).
  rewrite (new_events_app _ _ _ Hevs). intros Hin.
  destruct Hshape as
    [Hprints|(d & filename & tmp & mid & raised & tail & -> & _ & Hname & ->
              & Htail & Hmid & Hgone & Hkept)].
  { rewrite Forall_forall in Hprints. apply list_elem_of_In in Hin.
    by apply Hprints, not_print_tempfile in Hin. }
  assert (suffix = suffix_for rt d filename /\ name = tmp) as [-> ->].
  { destruct Hin as [[= <- <-]|Hin]; [done|].
    apply in_app_or in Hin as [Hin|[[=]|Hin]]; apply list_elem_of_In in Hin.
    - rewrite Forall_forall in Hmid.
      destruct (Hmid _ Hin) as [Hp|[res [=]]].
      by apply not_print_tempfile in Hp.
    - rewrite Forall_forall in Htail.
      by apply Htail, not_print_tempfile in Hin. }
  by exists d, filename, mid, raised, tail.
Qed.

(** A model call in the events of a run: its options are those of lines
    51-53 for the [language] of the payload. *)
Lemma transcribe_model_call_inv rt request w name opts res :
  In (EvTranscribe name opts res) (new_events w (transcribe rt request w).2) ->
  exists d,
    request = Parsed (JDict d) /\ opts = whisper_opts_of (language_of d).
Proof.
  destruct (transcribe_events rt request w) as (evs & Hevs & Hshape).
  rewrite (new_events_app _ _ _ Hevs). intros Hin.
  destruct Hshape as
    [Hprints|(d & filename & tmp & mid & raised & tail & -> & _ & Hname & ->
              & Htail & Hmid & _)].
  { rewrite Forall_forall in Hprints. apply list_elem_of_In in Hin.
    by apply Hprints, not_print_transcribe in Hin. }
  exists d. split; [done|].
  destruct Hin as [[=]|Hin].
  apply in_app_or in Hin as [Hin|[[=]|Hin]]; apply list_elem_of_In in Hin.
  - rewrite Forall_forall in Hmid.
    destruct (Hmid _ Hin) as [Hp|[res' [= _ -> _]]]; [|done].
    by apply not_print_transcribe in Hp.
  - rewrite Forall_forall in Htail.
    by apply Htail, not_print_transcribe in Hin.
Qed.

(** ** C1: the temporary file *)




(** ** C2, C4, C10: the two validation answers *)

(** A payload whose [data] is missing or false is answered by line 36 and
    nothing else happens. *)
Lemma transcribe_no_data rt d w :
  d <> [] ->
  truthy (data_of d) = false ->
  transcribe rt (Parsed (JDict d)) w = (Ret resp_missing_data, w).
Proof.
  intros Hd Hdata.
  unfold transcribe, try_except, transcribe_try, mbind, M_bind, get_json,
    mret, M_ret, py_get.
  destruct d as [|item d]; [done|]. simpl.
  fold (data_of (item :: d)). by rewrite Hdata.
Qed.

Lemma data_of_absent d : dict_get d (py "data") = None -> data_of d = JNull.
Proof. unfold data_of, dict_get_default. by intros ->. Qed.

Lemma data_of_present d v : dict_get d (py "data") = Some v -> data_of d = v.
Proof. unfold data_of, dict_get_default. by intros ->. Qed.

Lemma dict_get_nonempty d k v : dict_get d k = Some v -> d <> [].
Proof. by destruct d. Qed.

(** What the code does with such bodies.  A body that parses to a false
    value (null, an empty object, an empty array, an empty string, zero,
    false) reaches line 31 and is answered with ok:false and status 400.  A
    body that is empty or not JSON never reaches line 31: [get_json] raises,
    and the outer handler answers with ok:false and status 500.  The second
    half is the defect recorded for C2, not an intended behaviour. *)
Lemma transcribe_empty_or_malformed rt request w :
  empty_or_malformed request ->
  exists resp w',
    transcribe rt request w = (Ret resp, w')
    /\ body_field resp (py "ok") = Some (JBool false)
    /\ status resp = match request with
                     | Malformed _ => 500%Z
                     | Parsed _ => 400%Z
                     end.
Proof.
  destruct request as [e|payload]; simpl; intros Hreq.
  - eexists _, _. split; [reflexivity|]. by vm_compute.
  - exists resp_empty_json, w. split; [|by vm_compute].
    unfold transcribe, try_except, transcribe_try, mbind, M_bind, get_json,
      mret, M_ret.
    by rewrite Hreq.
Qed.

Lemma transcribe_empty_or_malformed_witness :
  exists resp w',
    transcribe (posix_runtime hola) req_empty_object empty_world = (Ret resp, w')
    /\ body_field resp (py "ok") = Some (JBool false)
    /\ status resp = 400%Z.
Proof.
  apply (transcribe_empty_or_malformed (posix_runtime hola) req_empty_object
           empty_world).
  reflexivity.
Defined.

(** C2, a defect of the code.  The claim asks for status 400 on an empty or
    unparseable body, and lines 31-32 set out to give it ("Request JSON
    vacio", 400), as they do for the body [{}].  But [get_json(force=True)]
    is not silent: on such a body it raises inside the outer [try], line 31
    is never reached, and lines 65-68 answer with status 500 -- with an error
    text that itself reads "400 Bad Request". *)
Lemma transcribe_malformed_is_500 :
  empty_or_malformed req_malformed
  /\ (exists resp w',
        transcribe (posix_runtime hola) req_malformed empty_world
        = (Ret resp, w')
        /\ body_field resp (py "ok") = Some (JBool false)
        /\ status resp = 500%Z
        /\ status resp <> 400%Z
        /\ body_field resp (py "error") = Some (JStr (exn_str BadRequest)))
  /\ empty_or_malformed req_empty_object
  /\ transcribe (posix_runtime hola) req_empty_object empty_world
     = (Ret resp_empty_json, empty_world)
  /\ status resp_empty_json = 400%Z.
Proof.
  split; [exact I|]. split.
  - eexists _, _. split; [reflexivity|]. by vm_compute.
  - by vm_compute.
Qed.

(** C4.  A non-empty object without a [data] field is answered with
    ok:false, status 400 and the message of line 36, whatever else it
    holds. *)
Theorem transcribe_missing_data rt d w :
  d <> [] ->
  dict_get d (py "data") = None ->
  exists resp,
    transcribe rt (Parsed (JDict d)) w = (Ret resp, w)
    /\ body_field resp (py "ok") = Some (JBool false)
    /\ body_field resp (py "error") = Some (JStr msg_missing_data)
    /\ status resp = 400%Z.
Proof.
  intros Hd Hget. exists resp_missing_data. split; [|by vm_compute].
  apply transcribe_no_data; [done|]. by rewrite (data_of_absent d Hget).
Qed.

Lemma transcribe_missing_data_witness :
  exists resp,
    transcribe (posix_runtime hola) (Parsed (JDict req_no_data)) empty_world
    = (Ret resp, empty_world)
    /\ body_field resp (py "ok") = Some (JBool false)
    /\ body_field resp (py "error") = Some (JStr msg_missing_data)
    /\ status resp = 400%Z.
Proof.
  apply (transcribe_missing_data (posix_runtime hola) req_no_data empty_world).
  - discriminate.
  - vm_compute. reflexivity.
Defined.

(** C10.  A [data] field that is present but false (the empty string, null,
    zero, false, an empty array or object) is answered as a missing one is:
    ok:false, status 400, the message of line 36; the world is left as it
    was, so no temporary file is made and the model is not called. *)
Theorem transcribe_false_data rt d v w :
  dict_get d (py "data") = Some v ->
  truthy v = false ->
  exists resp,
    transcribe rt (Parsed (JDict d)) w = (Ret resp, w)
    /\ body_field resp (py "ok") = Some (JBool false)
    /\ body_field resp (py "error") = Some (JStr msg_missing_data)
    /\ status resp = 400%Z
    /\ new_events w (transcribe rt (Parsed (JDict d)) w).2 = []
    /\ forall d',
         d' <> [] ->
         dict_get d' (py "data") = None ->
         transcribe rt (Parsed (JDict d')) w = (Ret resp, w).
Proof.
  intros Hget Hv. exists resp_missing_data.
  assert (transcribe rt (Parsed (JDict d)) w = (Ret resp_missing_data, w))
    as Hrun.
  { apply transcribe_no_data; [by eapply dict_get_nonempty|].
    by rewrite (data_of_present d v Hget). }
  rewrite Hrun. repeat split; try by vm_compute.
  - apply new_events_app. by rewrite app_nil_r.
  - intros d' Hd' Hget'. apply transcribe_no_data; [done|].
    by rewrite (data_of_absent d' Hget').
Qed.

Lemma transcribe_false_data_witness :
  exists resp,
    transcribe (posix_runtime hola) (Parsed (JDict req_empty_data)) empty_world
    = (Ret resp, empty_world)
    /\ body_field resp (py "ok") = Some (JBool false)
    /\ body_field resp (py "error") = Some (JStr msg_missing_data)
    /\ status resp = 400%Z
    /\ new_events empty_world
         (transcribe (posix_runtime hola) (Parsed (JDict req_empty_data))
            empty_world).2 = []
    /\ forall d',
         d' <> [] ->
         dict_get d' (py "data") = None ->
         transcribe (posix_runtime hola) (Parsed (JDict d')) empty_world
         = (Ret resp, empty_world).
Proof.
  apply (transcribe_false_data (posix_runtime hola) req_empty_data (JStr [])
           empty_world).
  - vm_compute. reflexivity.
  - reflexivity.
Defined.

(** ** C3: the language hint *)

(** C3, as amended.  The model is called without a language option when
    [language] is absent, is "auto" or is a false value (the empty string,
    null, zero, ...); every other value is passed on unchanged as the
    [language] option. *)
Theorem transcribe_language_hint rt request w name opts res :
  In (EvTranscribe name opts res) (new_events w (transcribe rt request w).2) ->
  exists d,
    request = Parsed (JDict d)
    /\ (dict_get d (py "language") = None
        \/ language_of d = JStr (py "auto")
        \/ truthy (language_of d) = false
        -> opts = [])
    /\ (truthy (language_of d) = true ->
        language_of d <> JStr (py "auto") ->
        opts = [(py "language", language_of d)]).
Proof.
  intros Hin.
  destruct (transcribe_model_call_inv rt request w name opts res Hin)
    as (d & -> & ->).
  exists d. split; [done|]. unfold whisper_opts_of. split.
  - intros [Habsent|[Hauto|Hfalse]].
    + unfold language_of, dict_get_default. by rewrite Habsent.
    + by rewrite Hauto.
    + by rewrite Hfalse.
  - intros -> Hne.
    destruct (language_of d) as [| | | |s| |]; try done.
    simpl. rewrite bool_decide_false; [done | congruence].
Qed.

Lemma transcribe_language_hint_witness :
  exists d,
    Parsed (JDict req_spanish) = Parsed (JDict d)
    /\ (dict_get d (py "language") = None
        \/ language_of d = JStr (py "auto")
        \/ truthy (language_of d) = false
        -> [(py "language", JStr (py "es"))] = [])
    /\ (truthy (language_of d) = true ->
        language_of d <> JStr (py "auto") ->
        [(py "language", JStr (py "es"))] = [(py "language", language_of d)]).
Proof.
  apply (transcribe_language_hint (posix_runtime hola)
           (Parsed (JDict req_spanish)) empty_world (tmp0 ".wav")
           [(py "language", JStr (py "es"))] (Ret hola)).
  vm_compute. right. right. left. reflexivity.
Defined.

(** C3 as stated fails: an empty [language] is present and is not "auto",
    and yet the model is called without a language option. *)
Lemma transcribe_empty_language_not_forwarded :
  dict_get req_empty_language (py "language") = Some (JStr [])
  /\ JStr [] <> JStr (py "auto")
  /\ In (EvTranscribe (tmp0 ".wav") [] (Ret hola))
        (new_events empty_world
           (transcribe (posix_runtime hola) (Parsed (JDict req_empty_language))
              empty_world).2).
Proof.
  split; [by vm_compute|]. split; [by vm_compute|].
  vm_compute. right. right. left. reflexivity.
Qed.

(** ** C5: the shape of a failure *)

(** C5, as amended.  Every answer that is not a success carries ok:false and
    a string [error]; the answers of the outer handler (status 500) carry a
    string [trace] as well, the two validation answers (status 400) carry no
    [trace]. *)
Theorem transcribe_failure_shape rt request w resp w' :
  transcribe rt request w = (Ret resp, w') ->
  body_field resp (py "ok") <> Some (JBool true) ->
  body_field resp (py "ok") = Some (JBool false)
  /\ (exists msg, body_field resp (py "error") = Some (JStr msg))
  /\ ((status resp = 400%Z /\ body_field resp (py "trace") = None)
      \/ (status resp = 500%Z
          /\ exists tb, body_field resp (py "trace") = Some (JStr tb))).
Proof.
  intros Hrun Hok.
  destruct (transcribe_response rt request w)
    as (resp0 & w0 & Hrun0 & Hshape).
  rewrite Hrun in Hrun0. injection Hrun0 as <- <-.
  destruct Hshape as [->|[->|[[e ->]|[text ->]]]].
  - split; [by vm_compute|]. split; [by eexists|]. left. by vm_compute.
  - split; [by vm_compute|]. split; [by eexists|]. left. by vm_compute.
  - split; [by vm_compute|]. split; [by eexists|]. right.
    split; [by vm_compute | by eexists].
  - by destruct Hok.
Qed.

Lemma transcribe_failure_shape_witness :
  body_field (resp_error (posix_runtime hola) BadRequest) (py "ok")
  = Some (JBool false)
  /\ (exists msg,
        body_field (resp_error (posix_runtime hola) BadRequest) (py "error")
        = Some (JStr msg))
  /\ ((status (resp_error (posix_runtime hola) BadRequest) = 400%Z
       /\ body_field (resp_error (posix_runtime hola) BadRequest) (py "trace")
          = None)
      \/ (status (resp_error (posix_runtime hola) BadRequest) = 500%Z
          /\ exists tb,
               body_field (resp_error (posix_runtime hola) BadRequest)
                 (py "trace") = Some (JStr tb))).
Proof.
  apply (transcribe_failure_shape (posix_runtime hola) req_malformed
           empty_world (resp_error (posix_runtime hola) BadRequest)
           (emit (EvPrint [py "ERROR en transcribe:";
                           format_exc (posix_runtime hola) BadRequest])
              empty_world)).
  - reflexivity.
  - vm_compute. discriminate.
Defined.

(** C5 as stated fails: the answer to an empty object is a failure and has
    no [trace] field. *)
Lemma transcribe_validation_has_no_trace :
  exists resp w',
    transcribe (posix_runtime hola) req_empty_object empty_world
    = (Ret resp, w')
    /\ body_field resp (py "ok") = Some (JBool false)
    /\ body_field resp (py "trace") = None.
Proof. eexists _, _. split; [reflexivity | by vm_compute]. Qed.

(** ** C6: the text of a success *)

(** A success is the answer of line 64 to a model call that returned. *)
Lemma transcribe_success_inv rt request w resp w' :
  transcribe rt request w = (Ret resp, w') ->
  body_field resp (py "ok") = Some (JBool true) ->
  exists name opts res text,
    In (EvTranscribe name opts res) (new_events w w')
    /\ text_of_result res = Ret text
    /\ resp = resp_ok text.
Proof.
  intros Hrun Hok.
  pose proof (transcribe_paths rt request w) as Hpath.
  rewrite Hrun in Hpath.
  inversion Hpath as
    [e Hreq Hout|payload Hp Hreq Hout|payload Hp Hnd Hreq Hout
    |d Hd Hdata Hreq Hout|d Hdata Hname Hreq Hout
    |d filename e Hdata Hname Htmp Hreq Hout
    |d filename tmp r w2 raised w3 Hdata Hname Htmp Hfile Hclean Htrace
       Hgone Hkept Hreq Hout];
    try (rewrite on_exception_run in Hout; injection Hout as <- _;
         by vm_compute in Hok);
    try (subst resp; by vm_compute in Hok).
  destruct r as [text|e]; simpl in Hout.
  2:{ injection Hout as <- _. by vm_compute in Hok. }
  injection Hout as <- <-.
  apply transcribe_file_run in Hfile as (_ & _ & Hmid).
  destruct Hmid as [(e & [=] & _)|(line & res & Hw2 & Hres)].
  exists tmp, (whisper_opts_of (language_of d)), res, text.
  split; [|done].
  rewrite (new_events_app w w3
             ([EvTempfile (suffix_for rt d filename) tmp; EvPrint [line];
               EvTranscribe tmp (whisper_opts_of (language_of d)) res;
               EvUnlink tmp raised])).
  - simpl. auto.
  - rewrite Htrace, Hw2. simpl. by rewrite <- !app_assoc.
Qed.

(** C6.  A success is [{ok: true, text: t}] with status 200, where [t] is
    the [text] of the result the model returned with the whitespace at both
    ends removed; [t] neither starts nor ends with whitespace. *)
Theorem transcribe_success_text rt request w resp w' :
  transcribe rt request w = (Ret resp, w') ->
  body_field resp (py "ok") = Some (JBool true) ->
  exists name opts result t0,
    In (EvTranscribe name opts (Ret result)) (new_events w w')
    /\ dict_get_default result (py "text") (JStr []) = JStr t0
    /\ resp = resp_ok (strip t0)
    /\ trimmed (strip t0)
    /\ exists l r,
         t0 = l ++ strip t0 ++ r
         /\ Forall (fun c => isspace c = true) l
         /\ Forall (fun c => isspace c = true) r.
Proof.
  intros Hrun Hok.
  destruct (transcribe_success_inv rt request w resp w' Hrun Hok)
    as (name & opts & res & text & Hin & Hres & ->).
  destruct res as [result|e]; [|done]. simpl in Hres.
  destruct (dict_get_default result (py "text") (JStr []))
    as [| | | |t0| |] eqn:Htext; try done.
  injection Hres as <-.
  exists name, opts, result, t0.
  repeat split; try done; try apply strip_trimmed.
  apply strip_split.
Qed.

Lemma transcribe_success_text_witness :
  exists name opts result t0,
    In (EvTranscribe name opts (Ret result))
       (new_events empty_world
          (transcribe (posix_runtime hola) req_hola empty_world).2)
    /\ dict_get_default result (py "text") (JStr []) = JStr t0
    /\ resp_ok (py "hola mundo") = resp_ok (strip t0)
    /\ trimmed (strip t0)
    /\ exists l r,
         t0 = l ++ strip t0 ++ r
         /\ Forall (fun c => isspace c = true) l
         /\ Forall (fun c => isspace c = true) r.
Proof.
  apply (transcribe_success_text (posix_runtime hola) req_hola empty_world
           (resp_ok (py "hola mundo"))).
  - vm_compute. reflexivity.
  - vm_compute. reflexivity.
Defined.

(** ** C7: data that does not decode *)

(** C7.  When [data] is present and true but [base64.b64decode] raises on
    it, the answer is ok:false with status 500, a processing error and not
    a client error. *)
Theorem transcribe_undecodable rt d data e w :
  dict_get d (py "data") = Some data ->
  truthy data = true ->
  b64decode rt data = Raise e ->
  exists resp w',
    transcribe rt (Parsed (JDict d)) w = (Ret resp, w')
    /\ body_field resp (py "ok") = Some (JBool false)
    /\ status resp = 500%Z.
Proof.
  intros Hget Htrue Hdec.
  apply data_of_present in Hget as Hdata_of.
  pose proof (transcribe_paths rt (Parsed (JDict d)) w) as Hpath.
  inversion Hpath as
    [|payload Hp Hreq Hout|payload Hp Hnd Hreq Hout
    |d' Hd Hdata Hreq Hout|d' Hdata Hname Hreq Hout
    |d' filename e' Hdata Hname Htmp Hreq Hout
    |d' filename tmp r w2 raised w3 Hdata Hname Htmp Hfile Hclean Htrace
       Hgone Hkept Hreq Hout]; subst.
  - apply dict_get_nonempty in Hget. by destruct d.
  - by destruct (Hnd d).
  - congruence.
  - eexists _, _. split; [reflexivity | by vm_compute].
  - eexists _, _. split; [reflexivity | by vm_compute].
  - apply transcribe_file_run in Hfile as (_ & Hraise & _).
    rewrite (Hraise e Hdec). simpl.
    eexists _, _. split; [reflexivity | by vm_compute].
Qed.

Lemma transcribe_undecodable_witness :
  exists resp w',
    transcribe (posix_runtime hola) (Parsed (JDict req_bad_base64)) empty_world
    = (Ret resp, w')
    /\ body_field resp (py "ok") = Some (JBool false)
    /\ status resp = 500%Z.
Proof.
  apply (transcribe_undecodable (posix_runtime hola) req_bad_base64
           (JStr (py "not-valid-base64!!"))
           (Base64.binascii_Error (py "Incorrect padding")) empty_world).
  - vm_compute. reflexivity.
  - vm_compute. reflexivity.
  - vm_compute. reflexivity.
Defined.

(** ** C8: the health check *)

(** C8.  [GET /health] answers [{ok: true, model: m}] with status 200, where
    [m] is the value of WHISPER_MODEL when the module was loaded, or "base"
    without one; it leaves the world as it found it, and answers the same
    after any sequence of requests. *)
Theorem health_reports_model environ cuda rt rs w :
  let st := startup environ cuda in
  let m := default (py "base") (environ !! py "WHISPER_MODEL") in
  let resp := (jsonify [(py "ok", JBool true); (py "model", JStr m)], 200%Z) in
  health st w = (Ret resp, w)
  /\ health st (serve rt st rs w).2 = (Ret resp, (serve rt st rs w).2).
Proof. split; reflexivity. Qed.

(** ** C9: the suffix of the temporary file *)

(** C9.  The suffix a temporary file is made with is "." followed by the
    format (the [format] field, "wav" without one), unless the filename (the
    [filename] field, "audio" without one) already ends with that, and then
    it is empty. *)
Theorem transcribe_suffix rt request w suffix name :
  In (EvTempfile suffix name) (new_events w (transcribe rt request w).2) ->
  exists d filename,
    request = Parsed (JDict d)
    /\ filename_of d = JStr filename
    /\ (py "." ++ format_value rt (format_of d) `suffix_of` filename ->
        suffix = [])
    /\ (~ py "." ++ format_value rt (format_of d) `suffix_of` filename ->
        suffix = py "." ++ format_value rt (format_of d))
    /\ (forall fmt, format_of d = JStr fmt ->
        format_value rt (format_of d) = fmt).
Proof.
  intros Hin.
  destruct (transcribe_tempfile_inv rt request w suffix name Hin)
    as (d & filename & mid & raised & tail & -> & Hname & -> & _).
  exists d, filename. split; [done|]. split; [done|].
  unfold suffix_for, endswith. repeat split.
  - intros Hends. by rewrite bool_decide_true.
  - intros Hends. by rewrite bool_decide_false.
  - by intros fmt ->.
Qed.

Lemma transcribe_suffix_witness :
  exists d filename,
    Parsed (JDict req_named) = Parsed (JDict d)
    /\ filename_of d = JStr filename
    /\ (py "." ++ format_value (posix_runtime hola) (format_of d)
          `suffix_of` filename ->
        @nil N = [])
    /\ (~ py "." ++ format_value (posix_runtime hola) (format_of d)
            `suffix_of` filename ->
        [] = py "." ++ format_value (posix_runtime hola) (format_of d))
    /\ (forall fmt, format_of d = JStr fmt ->
        format_value (posix_runtime hola) (format_of d) = fmt).
Proof.
  apply (transcribe_suffix (posix_runtime hola) (Parsed (JDict req_named))
           empty_world [] (py "/tmp/tmp0")).
  vm_compute. left. reflexivity.
Defined.

(** ** The embedding on concrete inputs *)

Example b64decode_hola :
  Base64.b64decode hola_b64 = Ret ["h"; "o"; "l"; "a"]%byte.
Proof. vm_compute. reflexivity. Qed.

Example b64decode_not_valid :
  Base64.b64decode (JStr (py "not-valid-base64!!"))
  = Raise (Base64.binascii_Error (py "Incorrect padding")).
Proof. vm_compute. reflexivity. Qed.

Example strip_unicode_space :
  strip ([160; 9]%N ++ py "hola mundo" ++ [10; 12288]%N) = py "hola mundo".
Proof. vm_compute. reflexivity. Qed.

Example transcribe_hola :
  transcribe (posix_runtime hola) req_hola empty_world
  = (Ret (resp_ok (py "hola mundo")),
     World ∅ ∅
       [EvTempfile (py ".wav") (tmp0 ".wav");
        EvPrint [py "Transcribiendo /tmp/tmp0.wav (lang=auto)"];
        EvTranscribe (tmp0 ".wav") [] (Ret hola);
        EvUnlink (tmp0 ".wav") None]).
Proof. vm_compute. reflexivity. Qed.

Example transcribe_spanish_on_windows :
  (transcribe (windows_runtime hola) (Parsed (JDict req_spanish)) empty_world).1
  = Ret (resp_ok (py "hola mundo"))
  /\ disk (transcribe (windows_runtime hola) (Parsed (JDict req_spanish))
             empty_world).2 = ∅.
Proof. split; vm_compute; reflexivity. Qed.

Example transcribe_list_payload :
  (transcribe (posix_runtime hola) (Parsed (JList [JInt 1])) empty_world).1
  = Ret (resp_error (posix_runtime hola) (AttributeError (JList [JInt 1]) "get")).
Proof. vm_compute. reflexivity. Qed.

(** * Further properties of the handler *)

(** ** The worlds of a run *)

Lemma created_lookup suffix tmp w :
  disk (created suffix tmp w) !! tmp = Some []
  /\ handles (created suffix tmp w) !! tmp = Some []
  /\ trace (created suffix tmp w) = trace w ++ [EvTempfile suffix tmp]
  /\ forall p, p <> tmp -> disk (created suffix tmp w) !! p = disk w !! p.
Proof.
  unfold created. simpl. repeat split; try apply lookup_insert_eq.
  intros p Hp. apply lookup_insert_ne. congruence.
Qed.

Lemma transcribe_file_decode_error rt tmp data_b64 language w e :
  b64decode rt data_b64 = Raise e ->
  transcribe_file rt tmp data_b64 language w = (Raise e, w).
Proof.
  intros H. unfold transcribe_file, mbind, M_bind, lift. by rewrite H.
Qed.

(** The inner [try] block on a file that was just made: it touches no other
    file and removes none; when it reaches the model, the file holds the
    decoded bytes and its file object is closed. *)
Lemma transcribe_file_steps rt tmp data_b64 language w r w' :
  handles w !! tmp = Some [] ->
  disk w !! tmp = Some [] ->
  transcribe_file rt tmp data_b64 language w = (r, w') ->
  (forall p, p <> tmp -> disk w' !! p = disk w !! p)
  /\ is_Some (disk w' !! tmp)
  /\ ((exists e, r = Raise e /\ trace w' = trace w)
      \/ exists audio line w_call res,
           b64decode rt data_b64 = Ret audio
           /\ trace w_call = trace w ++ [EvPrint [line]]
           /\ disk w_call !! tmp = Some audio
           /\ handles w_call !! tmp = None
           /\ res = model_transcribe rt w_call tmp (whisper_opts_of language)
           /\ w' = emit (EvTranscribe tmp (whisper_opts_of language) res) w_call
           /\ r = text_of_result res).
Proof.
  intros Hh Hd.
  unfold transcribe_file, mbind, M_bind, lift.
  destruct (b64decode rt data_b64) as [audio|e] eqn:Hdec.
  2:{ intros [= <- <-]. split; [done|]. split; [by eexists|]. left. eauto. }
  unfold file_write. rewrite Hh.
  destruct (io_error rt OpWrite w tmp) as [e|].
  { intros [= <- <-]. split; [done|]. split; [by eexists|]. left. eauto. }
  unfold file_flush. cbn [handles disk trace].
  rewrite lookup_insert_eq, Hd.
  set (w1 := World (disk w) (<[tmp:=[] ++ audio]> (handles w)) (trace w)).
  destruct (io_error rt OpFlush w1 tmp) as [e|].
  { intros [= <- <-]. split; [done|]. split; [by eexists|]. left. eauto. }
  unfold file_close. cbn [handles disk trace].
  rewrite !lookup_insert_eq.
  set (w2 := World _ _ (trace w)).
  destruct (io_error rt OpClose w2 tmp) as [e|].
  { intros [= <- <-]. subst w2. cbn [disk trace]. split.
    - intros p Hp. rewrite lookup_insert_ne by congruence. done.
    - split; [rewrite lookup_insert_eq; by eexists|]. left. eauto. }
  unfold print, model_call, py_strip, mret, M_ret, raise.
  cbn [default app].
  set (line := py "Transcribiendo " ++ tmp ++ py " (lang="
               ++ format_value rt language ++ py ")").
  set (w3 := World _ _ (trace w)).
  set (w_call := emit (EvPrint [line]) w3).
  set (res := model_transcribe rt w_call tmp (whisper_opts_of language)).
  intros H.
  assert (w' = emit (EvTranscribe tmp (whisper_opts_of language) res) w_call
          /\ r = text_of_result res) as [-> ->].
  { unfold text_of_result.
    destruct res as [result|e]; [|by simplify_eq].
    destruct (dict_get_default result (py "text") (JStr []));
      by simplify_eq. }
  assert (disk w_call !! tmp = Some audio) as Hfile.
  { subst w_call w3. cbn [emit disk]. rewrite lookup_insert_eq.
    by rewrite app_nil_r. }
  split; [|split].
  - intros p Hp. subst w_call w3. cbn [emit disk].
    rewrite !lookup_insert_ne by congruence. done.
  - cbn [emit disk]. rewrite Hfile. by eexists.
  - right. exists audio, line, w_call, res. repeat split; try done.
    subst w_call w3. cbn [emit handles]. apply lookup_delete_eq.
Qed.

(** The [finally] block on the disk: only the temporary file can go, and it
    goes exactly when the system does not refuse and the file is there. *)
Lemma cleanup_disk rt tmp w w' :
  cleanup rt tmp w = (Ret tt, w') ->
  handles w' = handles w
  /\ (forall p, p <> tmp -> disk w' !! p = disk w !! p)
  /\ (io_error rt OpUnlink w tmp = None -> disk w' = delete tmp (disk w))
  /\ (io_error rt OpUnlink w tmp <> None -> disk w' = disk w).
Proof.
  unfold cleanup, try_except, os_unlink.
  destruct (io_error rt OpUnlink w tmp) as [e|] eqn:Herr.
  - intros [= <-]. simpl. repeat split; congruence.
  - destruct (disk w !! tmp) as [content|] eqn:Hfile; intros [= <-]; simpl.
    + repeat split; try congruence.
      intros p Hp. apply lookup_delete_ne. congruence.
    + repeat split; try congruence.
      intros _. symmetry. by apply delete_id.
Qed.

(** The events of a run that made a temporary file, in full. *)
Lemma tempfile_run_events rt w suffix tmp data_b64 language r w2 raised w3 :
  transcribe_file rt tmp data_b64 language (created suffix tmp w) = (r, w2) ->
  trace w3 = trace w2 ++ [EvUnlink tmp raised] ->
  exists mid,
    new_events w (answer rt r w3).2
    = EvTempfile suffix tmp
        :: mid ++ EvUnlink tmp raised
        :: match r with
           | Ret _ => []
           | Raise e => [error_line rt e]
           end
    /\ ((mid = [] /\ exists e, r = Raise e)
        \/ exists line res,
             mid = [EvPrint [line];
                    EvTranscribe tmp (whisper_opts_of language) res]
             /\ r = text_of_result res).
Proof.
  intros Hfile Htrace.
  apply transcribe_file_run in Hfile as (_ & _ & Hmid).
  assert (exists mid,
             trace w2 = trace w ++ EvTempfile suffix tmp :: mid
             /\ ((mid = [] /\ exists e, r = Raise e)
                 \/ exists line res,
                      mid = [EvPrint [line];
                             EvTranscribe tmp (whisper_opts_of language) res]
                      /\ r = text_of_result res)) as (mid & Hw2 & Hshape).
  { destruct Hmid as [(e & -> & Ht)|(line & res & Ht & ->)].
    - exists []. split; [by rewrite Ht | left; eauto].
    - eexists. split; [|right; eauto].
      rewrite Ht. simpl. by rewrite <- app_assoc. }
  exists mid. split; [|done].
  apply new_events_app.
  destruct r as [text|e]; simpl; rewrite Htrace, Hw2;
    rewrite <- ?app_assoc; simpl; by rewrite <- ?app_assoc.
Qed.

(** A run in whose events a temporary file appears went down the last path
    of the handler, with that file. *)
Lemma transcribe_with_tempfile rt request w suffix name :
  In (EvTempfile suffix name) (new_events w (transcribe rt request w).2) ->
  exists d filename r w2 w3,
    request = Parsed (JDict d)
    /\ truthy (data_of d) = true
    /\ filename_of d = JStr filename
    /\ suffix = suffix_for rt d filename
    /\ tmp_name rt w suffix = Ret name
    /\ transcribe_file rt name (data_of d) (language_of d)
         (created suffix name w) = (r, w2)
    /\ cleanup rt name w2 = (Ret tt, w3)
    /\ transcribe rt request w = answer rt r w3.
Proof.
  intros Hin.
  destruct (transcribe_tempfile_inv rt request w suffix name Hin)
    as (d0 & fn0 & mid0 & raised0 & tail0 & _ & _ & _ & Hev & _).
  clear Hin. revert Hev.
  destruct (transcribe_paths rt request w) as
    [e|payload Hp|payload Hp Hnd|d Hd Hdata|d Hdata Hname
    |d filename e Hdata Hname Htmp
    |d filename tmp r w2 raised w3 Hdata Hname Htmp Hfile Hclean Htrace
       Hgone Hkept].
  1,3,5,6: (rewrite on_exception_run; simpl;
            rewrite (new_events_app _ _ [_]) by done; done).
  1,2: (simpl; rewrite (new_events_app _ _ []) by (by rewrite app_nil_r);
        done).
  destruct (tempfile_run_events rt w _ tmp _ _ r w2 raised w3 Hfile Htrace)
    as (mid & Hev' & _).
  rewrite Hev'. intros Heq. injection Heq as Hs Hn _. subst suffix name.
  exists d, filename, r, w2, w3. by repeat split.
Qed.

(** A model call in the events of a run: the events are exactly the making
    of the file, one line, the call, the unlink, and the error line if
    any. *)
Lemma transcribe_with_model_call rt request w name opts res :
  In (EvTranscribe name opts res) (new_events w (transcribe rt request w).2) ->
  exists suffix line raised,
    new_events w (transcribe rt request w).2
    = [EvTempfile suffix name; EvPrint [line]; EvTranscribe name opts res;
       EvUnlink name raised]
      ++ match text_of_result res with
         | Ret _ => []
         | Raise e => [error_line rt e]
         end
    /\ (transcribe rt request w).1
       = Ret (match text_of_result res with
              | Ret text => resp_ok text
              | Raise e => resp_error rt e
              end).
Proof.
  destruct (transcribe_paths rt request w) as
    [e|payload Hp|payload Hp Hnd|d Hd Hdata|d Hdata Hname
    |d filename e Hdata Hname Htmp
    |d filename tmp r w2 raised w3 Hdata Hname Htmp Hfile Hclean Htrace
       Hgone Hkept].
  1,3,5,6: (rewrite on_exception_run; simpl;
            rewrite (new_events_app _ _ [_]) by done;
            by intros [[=]|[]]).
  1,2: (simpl; rewrite (new_events_app _ _ []) by (by rewrite app_nil_r);
        by intros []).
  destruct (tempfile_run_events rt w _ tmp _ _ r w2 raised w3 Hfile Htrace)
    as (mid & Hev & Hshape).
  rewrite Hev.
  destruct Hshape as [[-> [e ->]]|(line & res' & -> & ->)]; simpl.
  - by intros [[=]|[[=]|[[=]|[]]]].
  - intros [[=]|[[=]|[[= -> -> ->]|Hin]]].
    + exists (suffix_for rt d filename), line, raised. split; [done|].
      destruct (answer_run rt (text_of_result res) w3) as (_ & _ & _ & Hresp).
      exact Hresp.
    + exfalso. destruct Hin as [[=]|Hin].
      destruct (text_of_result res'); simpl in Hin; unfold error_line in Hin;
        intuition discriminate.
Qed.

Lemma cleanup_trace rt tmp w w' :
  cleanup rt tmp w = (Ret tt, w') ->
  exists raised, trace w' = trace w ++ [EvUnlink tmp raised].
Proof.
  intros Hclean.
  destruct (cleanup_run rt tmp w) as (raised & w0 & Hrun & Htrace & _).
  rewrite Hclean in Hrun. injection Hrun as <-. by exists raised.
Qed.

Lemma answer_world rt r w :
  disk (answer rt r w).2 = disk w /\ handles (answer rt r w).2 = handles w.
Proof. by destruct r. Qed.

(** A model call in the events of a run, with the worlds around it: the
    call saw the decoded bytes in a closed file, and so did the [finally]
    block after it. *)
Lemma transcribe_model_call_full rt request w name opts res :
  In (EvTranscribe name opts res) (new_events w (transcribe rt request w).2) ->
  exists d audio w_call w2 w3,
    request = Parsed (JDict d)
    /\ opts = whisper_opts_of (language_of d)
    /\ b64decode rt (data_of d) = Ret audio
    /\ res = model_transcribe rt w_call name opts
    /\ disk w_call !! name = Some audio
    /\ handles w_call !! name = None
    /\ disk w2 !! name = Some audio
    /\ handles w2 !! name = None
    /\ cleanup rt name w2 = (Ret tt, w3)
    /\ transcribe rt request w = answer rt (text_of_result res) w3.
Proof.
  intros Hin.
  destruct (transcribe_with_model_call rt request w name opts res Hin)
    as (suffix & line & raised & Hev & _).
  assert (In (EvTempfile suffix name)
            (new_events w (transcribe rt request w).2)) as Htmp
    by (rewrite Hev; by left).
  destruct (transcribe_with_tempfile rt request w suffix name Htmp)
    as (d & filename & r & w2 & w3 & -> & Hdata & Hname & -> & Hname'
        & Hfile & Hclean & Hrun).
  destruct (created_lookup (suffix_for rt d filename) name w)
    as (Hd0 & Hh0 & Ht0 & _).
  destruct (cleanup_trace rt name w2 w3 Hclean) as (raised' & Htrace).
  rewrite Hrun in Hev.
  destruct (transcribe_file_steps rt name _ _ _ r w2 Hh0 Hd0 Hfile)
    as (_ & _ & [(e & -> & Ht)
                |(audio & line' & w_call & res' & Hdec & Htc & Hdc & Hhc
                  & Hres & -> & ->)]).
  - exfalso.
    rewrite (new_events_app w _
               [EvTempfile (suffix_for rt d filename) name;
                EvUnlink name raised'; error_line rt e]) in Hev.
    + discriminate.
    + simpl. rewrite Htrace, Ht, Ht0. by rewrite <- !app_assoc.
  - rewrite (new_events_app w _
               ([EvTempfile (suffix_for rt d filename) name; EvPrint [line'];
                 EvTranscribe name (whisper_opts_of (language_of d)) res';
                 EvUnlink name raised']
                ++ match text_of_result res' with
                   | Ret _ => []
                   | Raise e => [error_line rt e]
                   end)) in Hev.
    2:{ destruct (text_of_result res'); simpl; rewrite Htrace; simpl;
          rewrite Htc, Ht0; by rewrite <- !app_assoc. }
    simpl in Hev. injection Hev as Hline Hopts Hres' Hraised Htail.
    subst opts res.
    exists d, audio, w_call,
      (emit (EvTranscribe name (whisper_opts_of (language_of d)) res') w_call),
      w3.
    by repeat split.
Qed.

(** ** X1: status and [ok] *)

(** X1.  Every answer [transcribe] returns has status 200, 400 or 500, and
    the [ok] field of its body is true exactly when the status is 200. *)
Theorem transcribe_status_matches_ok rt request w resp w' :
  transcribe rt request w = (Ret resp, w') ->
  (status resp = 200 \/ status resp = 400 \/ status resp = 500)%Z
  /\ body_field resp (py "ok") = Some (JBool (status resp =? 200)%Z).
Proof.
  intros Hrun.
  destruct (transcribe_response rt request w) as (resp0 & w0 & Hrun0 & Hshape).
  rewrite Hrun in Hrun0. injection Hrun0 as <- <-.
  destruct Hshape as [->|[->|[[e ->]|[text ->]]]];
    (split; [vm_compute; auto | by vm_compute]).
Qed.

Lemma transcribe_status_matches_ok_witness :
  (status (resp_ok (py "hola mundo")) = 200
   \/ status (resp_ok (py "hola mundo")) = 400
   \/ status (resp_ok (py "hola mundo")) = 500)%Z
  /\ body_field (resp_ok (py "hola mundo")) (py "ok")
     = Some (JBool (status (resp_ok (py "hola mundo")) =? 200)%Z).
Proof.
  apply (transcribe_status_matches_ok (posix_runtime hola) req_hola
           empty_world (resp_ok (py "hola mundo"))
           (transcribe (posix_runtime hola) req_hola empty_world).2).
  vm_compute. reflexivity.
Defined.

(** ** X3, X4: the model call *)

(** X3.  The model is called at most once in a request, on the temporary
    file this request made, after one line was printed and before the file
    is unlinked: the events of such a run are the file, the line, the call,
    the unlink, and then prints only. *)
Theorem transcribe_model_call_placement rt request w name opts res :
  In (EvTranscribe name opts res) (new_events w (transcribe rt request w).2) ->
  exists suffix line raised tail,
    new_events w (transcribe rt request w).2
    = [EvTempfile suffix name; EvPrint [line]; EvTranscribe name opts res;
       EvUnlink name raised] ++ tail
    /\ Forall is_print tail.
Proof.
  intros Hin.
  destruct (transcribe_with_model_call rt request w name opts res Hin)
    as (suffix & line & raised & Hev & _).
  eexists suffix, line, raised, _. split; [exact Hev|].
  destruct (text_of_result res); repeat constructor. by eexists.
Qed.

Lemma transcribe_model_call_placement_witness :
  exists suffix line raised tail,
    new_events empty_world
      (transcribe (posix_runtime hola) req_hola empty_world).2
    = [EvTempfile suffix (tmp0 ".wav"); EvPrint [line];
       EvTranscribe (tmp0 ".wav") [] (Ret hola);
       EvUnlink (tmp0 ".wav") raised] ++ tail
    /\ Forall is_print tail.
Proof.
  apply (transcribe_model_call_placement (posix_runtime hola) req_hola
           empty_world (tmp0 ".wav") [] (Ret hola)).
  vm_compute. right. right. left. reflexivity.
Defined.

(** X4.  When the model is called, the temporary file holds exactly the
    bytes [data] decodes to and its file object has been closed (lines 46-48
    come before line 56). *)
Theorem transcribe_model_reads_decoded_file rt request w name opts res :
  In (EvTranscribe name opts res) (new_events w (transcribe rt request w).2) ->
  exists d audio w_call,
    request = Parsed (JDict d)
    /\ b64decode rt (data_of d) = Ret audio
    /\ res = model_transcribe rt w_call name opts
    /\ disk w_call !! name = Some audio
    /\ handles w_call !! name = None.
Proof.
  intros Hin.
  destruct (transcribe_model_call_full rt request w name opts res Hin)
    as (d & audio & w_call & w2 & w3 & -> & _ & Hdec & Hres & Hdisk & Hclosed
        & _).
  by exists d, audio, w_call.
Qed.

Lemma transcribe_model_reads_decoded_file_witness :
  exists d audio w_call,
    req_hola = Parsed (JDict d)
    /\ b64decode (posix_runtime hola) (data_of d) = Ret audio
    /\ Ret hola = model_transcribe (posix_runtime hola) w_call (tmp0 ".wav") []
    /\ disk w_call !! tmp0 ".wav" = Some audio
    /\ handles w_call !! tmp0 ".wav" = None.
Proof.
  apply (transcribe_model_reads_decoded_file (posix_runtime hola) req_hola
           empty_world (tmp0 ".wav") [] (Ret hola)).
  vm_compute. right. right. left. reflexivity.
Defined.

(** ** X5, X6: the disk *)

(** What a run does to the disk: nothing, or what the last path does to the
    file it made. *)
Lemma transcribe_disk rt request w :
  disk (transcribe rt request w).2 = disk w
  \/ exists suffix tmp w2 w3 r,
       tmp_name rt w suffix = Ret tmp
       /\ In (EvTempfile suffix tmp) (new_events w (transcribe rt request w).2)
       /\ (forall p, p <> tmp -> disk w2 !! p = disk w !! p)
       /\ is_Some (disk w2 !! tmp)
       /\ cleanup rt tmp w2 = (Ret tt, w3)
       /\ transcribe rt request w = answer rt r w3.
Proof.
  destruct (transcribe_paths rt request w) as
    [e|payload Hp|payload Hp Hnd|d Hd Hdata|d Hdata Hname
    |d filename e Hdata Hname Htmp
    |d filename tmp r w2 raised w3 Hdata Hname Htmp Hfile Hclean Htrace
       Hgone Hkept]; try by left.
  right. exists (suffix_for rt d filename), tmp, w2, w3, r.
  destruct (created_lookup (suffix_for rt d filename) tmp w)
    as (Hd0 & Hh0 & _ & Hframe0).
  destruct (tempfile_run_events rt w _ tmp _ _ r w2 raised w3 Hfile Htrace)
    as (mid & Hev & _).
  destruct (transcribe_file_steps rt tmp _ _ _ r w2 Hh0 Hd0 Hfile)
    as (Hframe & Hthere & _).
  repeat split; try done.
  - rewrite Hev. by left.
  - intros p Hp. rewrite (Hframe p Hp). by apply Hframe0.
Qed.

(** X5.  A request leaves every file alone except the temporary file it
    made itself: a path that no temporary file of this run has keeps its
    contents, or stays absent. *)
Theorem transcribe_leaves_other_files rt request w p :
  (forall suffix,
      ~ In (EvTempfile suffix p) (new_events w (transcribe rt request w).2)) ->
  disk (transcribe rt request w).2 !! p = disk w !! p.
Proof.
  intros Hnot.
  destruct (transcribe_disk rt request w)
    as [->|(suffix & tmp & w2 & w3 & r & _ & Hin & Hframe & _ & Hclean & Hrun)];
    [done|].
  assert (p <> tmp) as Hp by (intros ->; by apply (Hnot suffix)).
  rewrite Hrun. destruct (answer_world rt r w3) as [-> _].
  destruct (cleanup_disk rt tmp w2 w3 Hclean) as (_ & Hframe' & _).
  rewrite (Hframe' p Hp). by apply Hframe.
Qed.

Lemma transcribe_leaves_other_files_witness :
  disk (transcribe (windows_runtime hola) (Parsed (JDict req_bad_base64))
          (World {[ py "/srv/notas.txt" := ["a"%byte] ]} ∅ [])).2
    !! py "/srv/notas.txt"
  = disk (World {[ py "/srv/notas.txt" := ["a"%byte] ]} ∅ [])
      !! py "/srv/notas.txt".
Proof.
  apply (transcribe_leaves_other_files (windows_runtime hola)
           (Parsed (JDict req_bad_base64))
           (World {[ py "/srv/notas.txt" := ["a"%byte] ]} ∅ [])
           (py "/srv/notas.txt")).
  intros suffix. vm_compute. intros [H|[H|[H|[]]]]; discriminate H.
Defined.

(** With exclusive names and an [os.unlink] that is never refused, a request
    leaves the disk as it found it. *)
Lemma transcribe_restores_disk rt request w :
  (forall w0 suffix p, tmp_name rt w0 suffix = Ret p -> disk w0 !! p = None) ->
  (forall w0 p, io_error rt OpUnlink w0 p = None) ->
  disk (transcribe rt request w).2 = disk w.
Proof.
  intros Hfresh Hunlink.
  destruct (transcribe_disk rt request w)
    as [->|(suffix & tmp & w2 & w3 & r & Htmp & _ & Hframe & _ & Hclean & Hrun)];
    [done|].
  rewrite Hrun. destruct (answer_world rt r w3) as [-> _].
  destruct (cleanup_disk rt tmp w2 w3 Hclean) as (_ & _ & Hgone & _).
  rewrite (Hgone (Hunlink w2 tmp)).
  apply map_eq. intros p. destruct (decide (p = tmp)) as [->|Hp].
  - rewrite lookup_delete_eq. symmetry. by eapply Hfresh.
  - rewrite lookup_delete_ne by congruence. by apply Hframe.
Qed.

(** X6.  When temporary names are never names of existing files and
    [os.unlink] is never refused, serving any sequence of requests leaves
    the disk exactly as it was: temporary files do not pile up. *)
Theorem serve_restores_disk rt st rs w :
  (forall w0 suffix p, tmp_name rt w0 suffix = Ret p -> disk w0 !! p = None) ->
  (forall w0 p, io_error rt OpUnlink w0 p = None) ->
  disk (serve rt st rs w).2 = disk w.
Proof.
  intros Hfresh Hunlink. revert w.
  induction rs as [|r rs IH]; intros w; simpl; [done|].
  assert (disk (dispatch rt st r w).2 = disk w) as Hr.
  { destruct r as [|body]; simpl; [done|].
    by apply transcribe_restores_disk. }
  destruct (dispatch rt st r w) as [o w1]. simpl in Hr.
  specialize (IH w1).
  destruct (serve rt st rs w1) as [os w2]. simpl in *. congruence.
Qed.

Lemma serve_restores_disk_witness :
  disk (serve (exclusive_runtime hola) (startup ∅ false)
          [POST_transcribe req_hola; GET_health;
           POST_transcribe (Parsed (JDict req_bad_base64))]
          (World {[ py "/srv/notas.txt" := ["a"%byte] ]} ∅ [])).2
  = disk (World {[ py "/srv/notas.txt" := ["a"%byte] ]} ∅ []).
Proof.
  apply (serve_restores_disk (exclusive_runtime hola)).
  - intros w0 suffix p. simpl.
    destruct (decide (disk w0 !! _ = None)) as [Hnone|]; [|discriminate].
    intros [= <-]. exact Hnone.
  - reflexivity.
Defined.

(** ** X7: the answer does not depend on the cleanup *)

Lemma cleanup_answers rt tmp w : exists w', cleanup rt tmp w = (Ret tt, w').
Proof.
  destruct (cleanup_run rt tmp w) as (raised & w' & Hrun & _). by exists w'.
Qed.

(** X7.  Whatever [os.unlink] does, the answer is the same: a failure of
    the cleanup neither turns a success into an error nor replaces the
    error of the inner block (lines 59-62 drop it). *)
Theorem transcribe_answer_ignores_unlink rt refuse request w :
  (transcribe (with_unlink_error rt refuse) request w).1
  = (transcribe rt request w).1.
Proof.
  unfold transcribe, try_except, transcribe_try.
  destruct request as [e|payload]; [reflexivity|].
  unfold mbind, M_bind, get_json, mret, M_ret.
  destruct (truthy payload); simpl; [|reflexivity].
  destruct payload as [| | | | | |d]; try reflexivity.
  unfold py_get, mret, M_ret. fold (data_of d).
  destruct (truthy (data_of d)); simpl; [|reflexivity].
  fold (filename_of d) (format_of d) (language_of d).
  unfold suffix_of, py_endswith, mbind, M_bind, mret, M_ret, raise.
  destruct (filename_of d) as [| | | |filename| |]; try reflexivity.
  unfold NamedTemporaryFile. cbn [tmp_name with_unlink_error].
  change (format_value (with_unlink_error rt refuse))
    with (format_value rt).
  destruct (tmp_name rt w _) as [tmp|e]; [|reflexivity].
  unfold try_finally.
  change (transcribe_file (with_unlink_error rt refuse))
    with (transcribe_file rt).
  destruct (transcribe_file rt tmp (data_of d) (language_of d) _) as [r w2].
  destruct (cleanup_answers (with_unlink_error rt refuse) tmp w2) as [w3 ->].
  destruct (cleanup_answers rt tmp w2) as [w3' ->].
  by destruct r.
Qed.

(** ** X8: when a request succeeds *)

(** X8.  Once the model call has returned a result whose [text] is a string
    (or that has no [text], which line 57 takes as the empty string), the
    request succeeds: the answer is ok:true with that text stripped,
    whatever [os.unlink] does afterwards. *)
Theorem transcribe_succeeds rt request w name opts result t0 :
  In (EvTranscribe name opts (Ret result))
     (new_events w (transcribe rt request w).2) ->
  dict_get_default result (py "text") (JStr []) = JStr t0 ->
  (transcribe rt request w).1 = Ret (resp_ok (strip t0)).
Proof.
  intros Hin Htext.
  destruct (transcribe_with_model_call rt request w name opts _ Hin)
    as (suffix & line & raised & _ & ->).
  unfold text_of_result. by rewrite Htext.
Qed.

Lemma transcribe_succeeds_witness :
  (transcribe (windows_runtime hola) (Parsed (JDict req_spanish))
     empty_world).1
  = Ret (resp_ok (strip (py " hola mundo "))).
Proof.
  apply (transcribe_succeeds (windows_runtime hola)
           (Parsed (JDict req_spanish)) empty_world (tmp0 ".wav")
           [(py "language", JStr (py "es"))] hola).
  - vm_compute. right. right. left. reflexivity.
  - vm_compute. reflexivity.
Defined.

(** ** X9-X12: failures after the temporary file was made *)

(** X9.  When [data] does not decode, nothing is written and the model is
    not called: after the temporary file is made the handler goes straight
    to [os.unlink], prints the error line and answers with the message of
    the decoder's exception. *)
Theorem transcribe_decode_error rt d w suffix name e :
  In (EvTempfile suffix name)
     (new_events w (transcribe rt (Parsed (JDict d)) w).2) ->
  b64decode rt (data_of d) = Raise e ->
  (transcribe rt (Parsed (JDict d)) w).1 = Ret (resp_error rt e)
  /\ exists raised,
       new_events w (transcribe rt (Parsed (JDict d)) w).2
       = [EvTempfile suffix name; EvUnlink name raised; error_line rt e].
Proof.
  intros Hin Hdec.
  destruct (transcribe_with_tempfile rt _ w suffix name Hin)
    as (d' & filename & r & w2 & w3 & [= <-] & Hdata & Hname & -> & Htmp
        & Hfile & Hclean & Hrun).
  rewrite (transcribe_file_decode_error rt _ _ _ _ e Hdec) in Hfile.
  injection Hfile as <- <-.
  destruct (cleanup_trace rt name _ w3 Hclean) as (raised & Htrace).
  destruct (created_lookup (suffix_for rt d filename) name w)
    as (_ & _ & Ht0 & _).
  rewrite Hrun. split; [reflexivity|].
  exists raised. apply new_events_app. simpl.
  rewrite Htrace, Ht0. by rewrite <- !app_assoc.
Qed.

Lemma transcribe_decode_error_witness :
  (transcribe (posix_runtime hola) (Parsed (JDict req_bad_base64))
     empty_world).1
  = Ret (resp_error (posix_runtime hola)
           (Base64.binascii_Error (py "Incorrect padding")))
  /\ exists raised,
       new_events empty_world
         (transcribe (posix_runtime hola) (Parsed (JDict req_bad_base64))
            empty_world).2
       = [EvTempfile (py ".wav") (tmp0 ".wav");
          EvUnlink (tmp0 ".wav") raised;
          error_line (posix_runtime hola)
            (Base64.binascii_Error (py "Incorrect padding"))].
Proof.
  apply (transcribe_decode_error (posix_runtime hola) req_bad_base64
           empty_world (py ".wav") (tmp0 ".wav")).
  - vm_compute. left. reflexivity.
  - vm_compute. reflexivity.
Defined.

(** X10.  When the model raises, the answer is the 500 answer carrying the
    message of that exception, and the temporary file was unlinked (or the
    attempt made) before the error line was printed. *)
Theorem transcribe_model_error rt request w name opts e :
  In (EvTranscribe name opts (Raise e))
     (new_events w (transcribe rt request w).2) ->
  (transcribe rt request w).1 = Ret (resp_error rt e)
  /\ exists suffix line raised,
       new_events w (transcribe rt request w).2
       = [EvTempfile suffix name; EvPrint [line];
          EvTranscribe name opts (Raise e); EvUnlink name raised;
          error_line rt e].
Proof.
  intros Hin.
  destruct (transcribe_with_model_call rt request w name opts _ Hin)
    as (suffix & line & raised & Hev & Hresp).
  split; [exact Hresp|]. by exists suffix, line, raised.
Qed.

Lemma transcribe_model_error_witness :
  (transcribe (failing_runtime OutOfMemoryError) req_hola empty_world).1
  = Ret (resp_error (failing_runtime OutOfMemoryError) OutOfMemoryError)
  /\ exists suffix line raised,
       new_events empty_world
         (transcribe (failing_runtime OutOfMemoryError) req_hola
            empty_world).2
       = [EvTempfile suffix (tmp0 ".wav"); EvPrint [line];
          EvTranscribe (tmp0 ".wav") [] (Raise OutOfMemoryError);
          EvUnlink (tmp0 ".wav") raised;
          error_line (failing_runtime OutOfMemoryError) OutOfMemoryError].
Proof.
  apply (transcribe_model_error (failing_runtime OutOfMemoryError) req_hola
           empty_world (tmp0 ".wav") []).
  vm_compute. right. right. left. reflexivity.
Defined.

(** ** X11, X12: the text of the result *)

Lemma lstrip_spaces s : Forall (fun c => isspace c = true) s -> lstrip s = [].
Proof.
  induction 1 as [|c s Hc _ IH]; simpl; [done|]. by rewrite Hc.
Qed.

Lemma strip_spaces s : Forall (fun c => isspace c = true) s -> strip s = [].
Proof. intros H. unfold strip. by rewrite (lstrip_spaces s H). Qed.

(** X11.  A result without a [text] key, or whose text is only whitespace,
    is answered with ok:true and the empty text (the default of line 57 and
    the strip give the same). *)
Theorem transcribe_blank_text rt request w name opts result :
  In (EvTranscribe name opts (Ret result))
     (new_events w (transcribe rt request w).2) ->
  dict_get result (py "text") = None
  \/ (exists t0, dict_get result (py "text") = Some (JStr t0)
                 /\ Forall (fun c => isspace c = true) t0) ->
  (transcribe rt request w).1 = Ret (resp_ok []).
Proof.
  intros Hin Htext.
  destruct (transcribe_with_model_call rt request w name opts _ Hin)
    as (suffix & line & raised & _ & ->).
  unfold text_of_result, dict_get_default.
  destruct Htext as [->|(t0 & -> & Hblank)]; simpl.
  - reflexivity.
  - by rewrite (strip_spaces t0 Hblank).
Qed.

Lemma transcribe_blank_text_witness :
  (transcribe (posix_runtime silence) req_hola empty_world).1
  = Ret (resp_ok []).
Proof.
  apply (transcribe_blank_text (posix_runtime silence) req_hola empty_world
           (tmp0 ".wav") [] silence).
  - vm_compute. right. right. left. reflexivity.
  - left. vm_compute. reflexivity.
Defined.

(** X12.  A result whose [text] is not a string (null, a number, a list)
    makes line 57 raise: the answer is the 500 answer for the
    AttributeError on [strip]. *)
Theorem transcribe_text_not_str rt request w name opts result v :
  In (EvTranscribe name opts (Ret result))
     (new_events w (transcribe rt request w).2) ->
  dict_get result (py "text") = Some v ->
  (forall s, v <> JStr s) ->
  (transcribe rt request w).1 = Ret (resp_error rt (AttributeError v "strip")).
Proof.
  intros Hin Htext Hv.
  destruct (transcribe_with_model_call rt request w name opts _ Hin)
    as (suffix & line & raised & _ & ->).
  unfold text_of_result, dict_get_default. rewrite Htext. simpl.
  destruct v; try reflexivity. by destruct (Hv s).
Qed.

Lemma transcribe_text_not_str_witness :
  (transcribe (posix_runtime no_text) req_hola empty_world).1
  = Ret (resp_error (posix_runtime no_text) (AttributeError JNull "strip")).
Proof.
  apply (transcribe_text_not_str (posix_runtime no_text) req_hola empty_world
           (tmp0 ".wav") [] no_text JNull).
  - vm_compute. right. right. left. reflexivity.
  - vm_compute. reflexivity.
  - discriminate.
Defined.

(** ** X13-X15: failures before the temporary file is made *)

(** X13.  A body that parses to a true value other than an object (a
    non-empty array or string, a non-zero number, true) is not a client
    error for this handler: [payload.get] raises, the answer is the 500
    answer for that AttributeError, and nothing but the error line
    happens. *)
Theorem transcribe_not_an_object rt payload w :
  truthy payload = true ->
  (forall d, payload <> JDict d) ->
  transcribe rt (Parsed payload) w
  = (Ret (resp_error rt (AttributeError payload "get")),
     emit (error_line rt (AttributeError payload "get")) w).
Proof.
  intros Htrue Hnd.
  unfold transcribe, try_except, transcribe_try, mbind, M_bind, get_json,
    mret, M_ret.
  rewrite Htrue. simpl.
  destruct payload; try reflexivity. by destruct (Hnd d).
Qed.

Lemma transcribe_not_an_object_witness :
  transcribe (posix_runtime hola) (Parsed req_array) empty_world
  = (Ret (resp_error (posix_runtime hola) (AttributeError req_array "get")),
     emit (error_line (posix_runtime hola) (AttributeError req_array "get"))
       empty_world).
Proof.
  apply (transcribe_not_an_object (posix_runtime hola) req_array empty_world).
  - reflexivity.
  - discriminate.
Defined.

(** X14.  A [filename] that is not a string (null, a number, ...) makes
    line 43 raise before any file is made: the answer is the 500 answer for
    the AttributeError on [endswith], and nothing but the error line
    happens. *)
Theorem transcribe_filename_not_str rt d w :
  truthy (data_of d) = true ->
  (forall s, filename_of d <> JStr s) ->
  transcribe rt (Parsed (JDict d)) w
  = (Ret (resp_error rt (AttributeError (filename_of d) "endswith")),
     emit (error_line rt (AttributeError (filename_of d) "endswith")) w).
Proof.
  intros Hdata Hname.
  pose proof (transcribe_paths rt (Parsed (JDict d)) w) as Hpath.
  inversion Hpath as
    [|payload Hp Hreq Hout|payload Hp Hnd Hreq Hout
    |d' Hd Hdata' Hreq Hout|d' Hdata' Hname' Hreq Hout
    |d' filename' e' Hdata' Hname' Htmp' Hreq Hout
    |d' filename' tmp' r w2 raised w3 Hdata' Hname' Htmp' Hfile Hclean Htrace
       Hgone Hkept Hreq Hout]; subst.
  - by destruct d.
  - by destruct (Hnd d).
  - congruence.
  - reflexivity.
  - by destruct (Hname filename').
  - by destruct (Hname filename').
Qed.

Lemma transcribe_filename_not_str_witness :
  transcribe (posix_runtime hola) (Parsed (JDict req_null_filename))
    empty_world
  = (Ret (resp_error (posix_runtime hola)
            (AttributeError (filename_of req_null_filename) "endswith")),
     emit (error_line (posix_runtime hola)
             (AttributeError (filename_of req_null_filename) "endswith"))
       empty_world).
Proof.
  apply (transcribe_filename_not_str (posix_runtime hola) req_null_filename
           empty_world).
  - vm_compute. reflexivity.
  - intros s. vm_compute. discriminate.
Defined.

(** X15.  When the temporary file cannot be made, the answer is the 500
    answer for the exception of [NamedTemporaryFile]; there is no file to
    remove and [os.unlink] is not called. *)
Theorem transcribe_tempfile_failure rt d w filename e :
  truthy (data_of d) = true ->
  filename_of d = JStr filename ->
  tmp_name rt w (suffix_for rt d filename) = Raise e ->
  transcribe rt (Parsed (JDict d)) w
  = (Ret (resp_error rt e), emit (error_line rt e) w).
Proof.
  intros Hdata Hname Htmp.
  pose proof (transcribe_paths rt (Parsed (JDict d)) w) as Hpath.
  inversion Hpath as
    [|payload Hp Hreq Hout|payload Hp Hnd Hreq Hout
    |d' Hd Hdata' Hreq Hout|d' Hdata' Hname' Hreq Hout
    |d' filename' e' Hdata' Hname' Htmp' Hreq Hout
    |d' filename' tmp' r w2 raised w3 Hdata' Hname' Htmp' Hfile Hclean Htrace
       Hgone Hkept Hreq Hout]; subst.
  - by destruct d.
  - by destruct (Hnd d).
  - congruence.
  - by destruct (Hname' filename).
  - assert (filename' = filename) as -> by congruence.
    assert (e' = e) as -> by congruence.
    reflexivity.
  - assert (filename' = filename) as -> by congruence. congruence.
Qed.

Lemma transcribe_tempfile_failure_witness :
  transcribe (exclusive_runtime hola) req_hola
    (World {[ tmp0 ".wav" := [] ]} ∅ [])
  = (Ret (resp_error (exclusive_runtime hola) FileExistsError),
     emit (error_line (exclusive_runtime hola) FileExistsError)
       (World {[ tmp0 ".wav" := [] ]} ∅ [])).
Proof.
  apply (transcribe_tempfile_failure (exclusive_runtime hola)
           [(py "data", hola_b64)] (World {[ tmp0 ".wav" := [] ]} ∅ [])
           (py "audio")).
  - vm_compute. reflexivity.
  - vm_compute. reflexivity.
  - vm_compute. reflexivity.
Defined.

(** ** X16: the error line *)

Lemma on_exception_answer rt e w :
  on_exception rt e w = (Ret (resp_error rt e), emit (error_line rt e) w).
Proof. reflexivity. Qed.

(** X16.  The error line of line 67 is printed exactly for the 500
    answers: a 500 answer is the answer for some exception whose traceback
    is in the body and in the last line printed; a 200 or 400 answer prints
    no error line. *)
Theorem transcribe_error_logged rt request w resp w' :
  transcribe rt request w = (Ret resp, w') ->
  (status resp = 500%Z ->
   exists e, resp = resp_error rt e
             /\ last (new_events w w') = Some (error_line rt e))
  /\ (status resp <> 500%Z ->
      forall tb,
        ~ In (EvPrint [py "ERROR en transcribe:"; tb]) (new_events w w')).
Proof.
  intros Hrun.
  assert ((transcribe rt request w).1 = Ret resp) as Hresp by (by rewrite Hrun).
  assert (w' = (transcribe rt request w).2) as -> by (by rewrite Hrun).
  clear Hrun. revert Hresp.
  destruct (transcribe_paths rt request w) as
    [e|payload Hp|payload Hp Hnd|d Hd Hdata|d Hdata Hname
    |d filename e Hdata Hname Htmp
    |d filename tmp r w2 raised w3 Hdata Hname Htmp Hfile Hclean Htrace
       Hgone Hkept].
  1,3,5,6: (rewrite on_exception_answer; cbn [fst snd]; intros [= <-];
            rewrite (new_events_app w _ [error_line rt _]) by done;
            split; [intros _; eexists; split; reflexivity
                   | intros Hne; by destruct Hne]).
  1,2: (simpl; intros [= <-];
        rewrite (new_events_app w w []) by (by rewrite app_nil_r);
        split; [by intros [=] | by intros _ tb []]).
  destruct (tempfile_run_events rt w _ tmp _ _ r w2 raised w3 Hfile Htrace)
    as (mid & Hev & Hshape).
  rewrite Hev.
  destruct r as [text|e]; simpl; intros [= <-].
  - split; [by intros [=]|]. intros _ tb.
    destruct Hshape as [[-> _]|(line & res & -> & _)]; simpl;
      intuition discriminate.
  - split; [|intros Hne; by destruct Hne]. intros _. exists e. split; [done|].
    destruct Hshape as [[-> _]|(line & res & -> & _)]; reflexivity.
Qed.

Lemma transcribe_error_logged_witness :
  (status (resp_error (posix_runtime hola) BadRequest) = 500%Z ->
   exists e, resp_error (posix_runtime hola) BadRequest
             = resp_error (posix_runtime hola) e
             /\ last (new_events empty_world
                        (transcribe (posix_runtime hola) req_malformed
                           empty_world).2)
                = Some (error_line (posix_runtime hola) e))
  /\ (status (resp_error (posix_runtime hola) BadRequest) <> 500%Z ->
      forall tb,
        ~ In (EvPrint [py "ERROR en transcribe:"; tb])
            (new_events empty_world
               (transcribe (posix_runtime hola) req_malformed empty_world).2)).
Proof.
  apply (transcribe_error_logged (posix_runtime hola) req_malformed
           empty_world).
  reflexivity.
Defined.

(** ** X17, X18: removing a file that may still be open *)

(** X17.  When [data] does not decode, [os.unlink] is called while the file
    object is still open (line 48 was not reached): on a system that
    refuses to remove an open file, the temporary file of such a request
    stays on disk. *)
Theorem transcribe_open_file_survives rt d w suffix name e :
  (forall w0 p, is_Some (handles w0 !! p) -> io_error rt OpUnlink w0 p <> None) ->
  In (EvTempfile suffix name)
     (new_events w (transcribe rt (Parsed (JDict d)) w).2) ->
  b64decode rt (data_of d) = Raise e ->
  disk (transcribe rt (Parsed (JDict d)) w).2 !! name = Some [].
Proof.
  intros Hopen Hin Hdec.
  destruct (transcribe_with_tempfile rt _ w suffix name Hin)
    as (d' & filename & r & w2 & w3 & [= <-] & Hdata & Hname & -> & Htmp
        & Hfile & Hclean & Hrun).
  rewrite (transcribe_file_decode_error rt _ _ _ _ e Hdec) in Hfile.
  injection Hfile as <- <-.
  destruct (created_lookup (suffix_for rt d filename) name w)
    as (Hd0 & Hh0 & _).
  destruct (cleanup_disk rt name _ w3 Hclean) as (_ & _ & _ & Hkept).
  rewrite Hrun. destruct (answer_world rt (Raise e) w3) as [-> _].
  rewrite Hkept; [exact Hd0|]. apply Hopen. eexists. exact Hh0.
Qed.

Lemma transcribe_open_file_survives_witness :
  disk (transcribe (windows_runtime hola) (Parsed (JDict req_bad_base64))
          empty_world).2 !! tmp0 ".wav" = Some [].
Proof.
  apply (transcribe_open_file_survives (windows_runtime hola) req_bad_base64
           empty_world (py ".wav") (tmp0 ".wav")
           (Base64.binascii_Error (py "Incorrect padding"))).
  - intros w0 p [buf Hbuf]. simpl. by rewrite Hbuf.
  - vm_compute. left. reflexivity.
  - vm_compute. reflexivity.
Defined.

(** X18.  Once the model has been called the file object is closed, so on a
    system that refuses [os.unlink] only for open files the temporary file
    is gone when the handler returns, whether the model returned or
    raised. *)
Theorem transcribe_closed_file_removed rt request w name opts res :
  (forall w0 p, handles w0 !! p = None -> io_error rt OpUnlink w0 p = None) ->
  In (EvTranscribe name opts res) (new_events w (transcribe rt request w).2) ->
  disk (transcribe rt request w).2 !! name = None.
Proof.
  intros Hclosed Hin.
  destruct (transcribe_model_call_full rt request w name opts res Hin)
    as (d & audio & w_call & w2 & w3 & _ & _ & _ & _ & _ & _ & _ & Hh2
        & Hclean & Hrun).
  destruct (cleanup_disk rt name w2 w3 Hclean) as (_ & _ & Hgone & _).
  rewrite Hrun. destruct (answer_world rt (text_of_result res) w3) as [-> _].
  rewrite (Hgone (Hclosed w2 name Hh2)). apply lookup_delete_eq.
Qed.

Lemma transcribe_closed_file_removed_witness :
  disk (transcribe (windows_runtime hola) (Parsed (JDict req_spanish))
          empty_world).2 !! tmp0 ".wav" = None.
Proof.
  apply (transcribe_closed_file_removed (windows_runtime hola)
           (Parsed (JDict req_spanish)) empty_world (tmp0 ".wav")
           [(py "language", JStr (py "es"))] (Ret hola)).
  - intros w0 p Hnone. simpl. by rewrite Hnone.
  - vm_compute. right. right. left. reflexivity.
Defined.

(** ** X19: loading the module *)

(** X19.  When the module loads, the model was loaded exactly once, under
    the name WHISPER_MODEL gives (or "base") and on "cuda" exactly when CUDA
    is available, and [/health] reports the very name the model was loaded
    under. *)
Theorem load_module_health h st evs w :
  load_module h = (Ret st, evs) ->
  filter is_load evs = [BootLoadModel (MODEL_NAME st) (device st)]
  /\ MODEL_NAME st = default (py "base") (environ h !! py "WHISPER_MODEL")
  /\ device st = (if cuda_is_available h then py "cuda" else py "cpu")
  /\ (health st w).1 = Ret (jsonify [(py "ok", JBool true);
                                     (py "model", JStr (MODEL_NAME st))],
                            200%Z).
Proof.
  unfold load_module.
  destruct (import_whisper h); [discriminate|].
  destruct (load_model h _ _); [discriminate|].
  intros [= <- <-]. by repeat split.
Qed.

Lemma load_module_health_witness :
  filter is_load (load_module host_small).2
  = [BootLoadModel (py "small") (py "cpu")]
  /\ py "small" = default (py "base") (environ host_small !! py "WHISPER_MODEL")
  /\ py "cpu" = (if cuda_is_available host_small then py "cuda" else py "cpu")
  /\ (health (startup (environ host_small) false) empty_world).1
     = Ret (jsonify [(py "ok", JBool true); (py "model", JStr (py "small"))],
            200%Z).
Proof.
  apply (load_module_health host_small
           (startup (environ host_small) false)
           (load_module host_small).2 empty_world).
  vm_compute. reflexivity.
Defined.
